(** * Synchronous webhook transport (saleor/webhook/transport/synchronous/transport.py)

    A shallow embedding of the synchronous webhook delivery engine.  Python
    code that talks to the outside world (HTTP transport, the ORM, the cache,
    the logger, the task queue, tracing) is modelled in a state-and-exception
    monad over a [World]: every call of an external collaborator appends an
    [Event] to the world's trace, and whatever the collaborator answers is read
    from a record of [Externals], whose fields may inspect the whole world
    (hence the whole history) before they answer. *)

From Stdlib Require Import String Ascii ZArith List Bool Lia.
From stdpp Require Import base option list gmap strings.

Import ListNotations.
Set Warnings "-register-all".
Local Open Scope string_scope.
Local Open Scope Z_scope.
Local Open Scope list_scope.

(** ** Python values *)

(** What [json.loads] and the payload generators hand back.  [PyNone] is
    Python's [None]; JSON [null] decodes to it. *)
Inductive PyValue : Type :=
| PyNone
| PyBool (b : bool)
| PyInt (z : Z)
| PyStr (s : string)
| PyList (items : list PyValue)
| PyDict (entries : list (string * PyValue)).

(** A Python [dict] with string keys, in insertion order. *)
Definition Dict : Type := list (string * PyValue).

(** Truthiness of a [dict | None]: [None] and the empty dict are falsy. *)
Definition truthy_dict (o : option Dict) : bool :=
  match o with
  | None | Some [] => false
  | Some (_ :: _) => true
  end.

(** [x is None] *)
Definition is_none (v : PyValue) : bool :=
  match v with PyNone => true | _ => false end.

(** Python truthiness of a value ([if not data]). *)
Definition truthy (v : PyValue) : bool :=
  match v with
  | PyNone => false
  | PyBool b => b
  | PyInt z => negb (z =? 0)
  | PyStr s => negb (String.eqb s "")
  | PyList items => match items with [] => false | _ => true end
  | PyDict entries => match entries with [] => false | _ => true end
  end.

(** Truthiness of an optional string ([webhook.subscription_query]). *)
Definition truthy_str (o : option string) : bool :=
  match o with
  | None => false
  | Some s => negb (String.eqb s "")
  end.

(** Truthiness of an optional number ([if timeout:], [cache_timeout or ...]). *)
Definition truthy_num (o : option Z) : bool :=
  match o with
  | None => false
  | Some z => negb (z =? 0)
  end.

(** [str.lower()] on the ASCII range. *)
Definition lower_ascii (c : ascii) : ascii :=
  let n := nat_of_ascii c in
  if (Nat.leb 65 n && Nat.leb n 90)%bool then ascii_of_nat (n + 32) else c.

Fixpoint lower (s : string) : string :=
  match s with
  | EmptyString => EmptyString
  | String c rest => String (lower_ascii c) (lower rest)
  end.

(** ** Data model *)

Inductive EventDeliveryStatus : Type := PENDING | SUCCESS | FAILED.

Definition status_eqb (a b : EventDeliveryStatus) : bool :=
  match a, b with
  | PENDING, PENDING | SUCCESS, SUCCESS | FAILED, FAILED => true
  | _, _ => false
  end.

(** [WebhookSchemes.HTTP], [WebhookSchemes.HTTPS] *)
Module WebhookSchemes.
Definition HTTP : string := "http".
Definition HTTPS : string := "https".
End WebhookSchemes.

Record App : Type := mkApp { app_pk : Z }.

Record Webhook : Type := mkWebhook {
  target_url : string;
  secret_key : option string;
  custom_headers : list (string * string);
  subscription_query : option string;
  app : App;
}.

Definition app_id (w : Webhook) : Z := app_pk (app w).

Record EventPayload : Type := mkEventPayload {
  payload_pk : option Z;
  payload_body : string;
}.

Record EventDelivery : Type := mkEventDelivery {
  delivery_pk : option Z;
  delivery_status : EventDeliveryStatus;
  delivery_event_type : string;
  delivery_payload : EventPayload;
  delivery_webhook : Webhook;
}.

Definition with_status (d : EventDelivery) (st : EventDeliveryStatus) : EventDelivery :=
  {| delivery_pk := delivery_pk d;
     delivery_status := st;
     delivery_event_type := delivery_event_type d;
     delivery_payload := delivery_payload d;
     delivery_webhook := delivery_webhook d |}.

Record WebhookResponse : Type := mkWebhookResponse {
  content : string;
  response_status_code : option Z;
  status : EventDeliveryStatus;
}.

(** [response.status = EventDeliveryStatus.FAILED] *)
Definition set_response_status (r : WebhookResponse) (st : EventDeliveryStatus)
  : WebhookResponse :=
  {| content := content r;
     response_status_code := response_status_code r;
     status := st |}.

Record EventDeliveryAttempt : Type := mkAttempt {
  attempt_delivery : EventDelivery;
  attempt_task_id : option string;
  attempt_saved : bool;
}.

Record TransactionEvent : Type := mkTransactionEvent {
  transaction_event_id : Z;
  transaction_event_transaction : Z;
}.

Record TransactionActionData : Type := mkTransactionActionData {
  transaction_app_owner : option App;
  transaction_data_event : TransactionEvent;
  transaction_data_transaction : Z;
}.

Inductive SubscribableObject : Type :=
| NoObject
| TransactionObject (data : TransactionActionData)
| OtherObject (ref : string).

(** The request context shared between sync event calls. *)
Record Request : Type := mkRequest {
  request_requestor : option string;
  request_sync_event : bool;
  request_event_type : string;
  request_allow_replica : bool;
}.

(** The arguments of one [send_webhook_using_http] call. *)
Record HttpRequest : Type := mkHttpRequest {
  http_target_url : string;
  http_message : string;
  http_domain : string;
  http_signature : string;
  http_event_type : string;
  http_timeout : Z;
  http_custom_headers : list (string * string);
}.

(** The celery task instance ([self]): its request id and its retry policy
    ([retry_backoff=10], [retry_kwargs={max_retries: 5}]). *)
Record Task : Type := mkTask {
  task_request_id : string;
  task_retries : nat;
  task_retry_backoff : Z;
  task_max_retries : Z;
}.

Inductive LogLevel : Type := DEBUG | INFO | WARNING | ERROR.

Inductive Exn : Type :=
| ValueError (msg : string) (arg : string)
| PaymentError (msg : string)
| DatabaseError (msg : string)
| Retry (countdown : Z).

(** ** Effects *)

(** One entry per call of an external collaborator, in program order. *)
Inductive Event : Type :=
| EvLog (level : LogLevel) (msg : string)
| EvDeliveryUpdate (d : EventDelivery) (st : EventDeliveryStatus)
| EvRecordExternalRequest (url : string) (r : WebhookResponse) (payload_size : nat)
| EvCreateAttempt (a : EventDeliveryAttempt)
| EvSendWebhookUsingHttp (req : HttpRequest) (r : WebhookResponse)
| EvSpanSetStatusError
| EvAttemptUpdate (a : EventDeliveryAttempt) (r : WebhookResponse)
| EvReportEventDeliveryAttempt (a : EventDeliveryAttempt)
| EvSaveUnsuccessfulDeliveryAttempt (a : EventDeliveryAttempt)
| EvClearSuccessfulDelivery (d : EventDelivery)
| EvInitializeRequest (r : Request)
| EvGeneratePayloadFromSubscription (event_type : string) (w : Webhook)
| EvGeneratePayload
| EvNewEventDelivery (d : EventDelivery)
| EvHandleWebhookRetry (t : Task) (w : Webhook) (r : WebhookResponse)
    (d : EventDelivery) (a : EventDeliveryAttempt)
| EvTaskRetry (t : Task) (countdown : Z)
| EvCreateTransactionEventFromRequestAndWebhookResponse
    (request_event : TransactionEvent) (a : App) (response_data : PyValue)
| EvCreateFailedTransactionEvent (event : TransactionEvent) (cause : string)
| EvRecalculateRefundableForCheckout (transaction : Z) (event : TransactionEvent)
| EvCallEvent (delivery_id : option Z) (event_id : Z).

(** The world the module runs in: the trace of external calls, the response
    cache (key to value and expiry instant), the clock, and the two tables
    the module writes. *)
Record World : Type := mkWorld {
  trace : list Event;
  cache : gmap string (PyValue * Z);
  now : Z;
  db_payloads : list EventPayload;
  db_deliveries : list EventDelivery;
  next_pk : Z;
}.

Definition emit (e : Event) (s : World) : World :=
  {| trace := trace s ++ [e];
     cache := cache s;
     now := now s;
     db_payloads := db_payloads s;
     db_deliveries := db_deliveries s;
     next_pk := next_pk s |}.

(** [emits es s]: the world [s] after the external calls [es], in order. *)
Definition emits (es : list Event) (s : World) : World :=
  {| trace := trace s ++ es;
     cache := cache s;
     now := now s;
     db_payloads := db_payloads s;
     db_deliveries := db_deliveries s;
     next_pk := next_pk s |}.

(** Outcome of running a piece of Python: a returned value or a raised
    exception, each with the world it leaves behind. *)
Inductive Result (A : Type) : Type :=
| Ret (a : A) (s : World)
| Raise (e : Exn) (s : World).
Arguments Ret {A} a s.
Arguments Raise {A} e s.

Definition M (A : Type) : Type := World -> Result A.

Definition ret {A} (a : A) : M A := fun s => Ret a s.
Definition raise {A} (e : Exn) : M A := fun s => Raise e s.
Definition bind {A B} (m : M A) (k : A -> M B) : M B :=
  fun s => match m s with
           | Ret a s' => k a s'
           | Raise e s' => Raise e s'
           end.
Definition call (e : Event) : M unit := fun s => Ret tt (emit e s).
Definition ask {A} (f : World -> A) : M A := fun s => Ret (f s) s.

Declare Scope py_scope.
Delimit Scope py_scope with py.
Notation "x <- m ;; k" := (bind m (fun x => k))
  (at level 100, m at next level, right associativity) : py_scope.
Notation "m ;;; k" := (bind m (fun _ => k))
  (at level 100, right associativity) : py_scope.
Local Open Scope py_scope.

Definition final_world {A} (r : Result A) : World :=
  match r with Ret _ s => s | Raise _ s => s end.

(** ** External collaborators *)

Inductive DbWrite : Type :=
| WritePayload (p : EventPayload)
| WriteDelivery (d : EventDelivery).

(** What a run of the subscription payload generator gives: [dict | None],
    or a raised exception (callers guard against [PaymentError]). *)
Inductive Generated : Type :=
| GenData (data : option Dict)
| GenRaise (e : Exn).

(** Everything this module imports but does not define.  Each answer may
    depend on the world at the moment of the call. *)
Record Externals : Type := mkExternals {
  (* settings and constants *)
  WEBHOOK_SYNC_TIMEOUT : Z;
  WEBHOOK_CACHE_DEFAULT_TIMEOUT : Z;
  WEBHOOK_TYPES_MAP : string -> bool;
  WebhookEventSyncType_ALL : string -> bool;
  (* the Python standard library *)
  urlparse_scheme : string -> string;
  json_loads : string -> option PyValue;   (* [None]: JSONDecodeError *)
  json_dumps : PyValue -> string;
  (* saleor helpers *)
  get_domain : World -> string;
  signature_for_payload : string -> option string -> string;
  send_webhook_using_http : World -> HttpRequest -> WebhookResponse;
  generate_payload_from_subscription :
    World -> string -> SubscribableObject -> option string -> Request -> App -> Generated;
  get_pregenerated_subscription_payload :
    Webhook -> list (Z * Dict) -> option Dict;
  generate_cache_key_for_webhook : PyValue -> string -> string -> Z -> string;
  get_webhooks_for_event : World -> string -> option (list Z) -> list Webhook;
  TaxData : Type;
  parse_tax_data : PyValue -> Z -> string + TaxData;   (* [inl]: ValidationError *)
  find_transaction_event : World -> Z -> option TransactionEvent;
  get_delivery_for_webhook : World -> Z -> option EventDelivery;
  generate_transaction_action_request_payload :
    TransactionActionData -> option string -> string;
  (* whether the database refuses a write *)
  db_write_fails : World -> DbWrite -> bool;
  (* the circuit breaker, when one is configured: does it short-circuit? *)
  breaker_board : option (World -> string -> Webhook -> bool);
}.

(** ** The database and [transaction.atomic()] *)

Definition set_db (ps : list EventPayload) (ds : list EventDelivery) (pk : Z)
    (s : World) : World :=
  {| trace := trace s;
     cache := cache s;
     now := now s;
     db_payloads := ps;
     db_deliveries := ds;
     next_pk := pk |}.

(** Leaving the block on an exception undoes the rows written inside it;
    nothing else of the world is touched. *)
Definition atomic {A} (body : M A) : M A :=
  fun s => match body s with
           | Ret a s' => Ret a s'
           | Raise e s' => Raise e (set_db (db_payloads s) (db_deliveries s) (next_pk s') s')
           end.

(** [allow_writer()] only selects the database connection. *)
Definition allow_writer {A} (body : M A) : M A := body.

(** How one pass through the body of a [for] loop ends: it falls through (or
    hits [continue]) with the loop's local variables, or it [return]s. *)
Inductive LoopCtl (L R : Type) : Type :=
| Continue (locals : L)
| Return (r : R).
Arguments Continue {L R} locals.
Arguments Return {L R} r.

(** The loop's locals: [request_context] and [event_payload]. *)
Definition TaxesLocals : Type := (option Request * option EventPayload)%type.

Section Transport.

Variable ext : Externals.

(** [event_payload.save_as_file()] / [EventPayload.objects.create_with_payload_file] *)
Definition save_payload (p : EventPayload) : M EventPayload :=
  fun s =>
    if db_write_fails ext s (WritePayload p)
    then Raise (DatabaseError "payload") s
    else
      let saved := {| payload_pk := Some (next_pk s); payload_body := payload_body p |} in
      Ret saved (set_db (db_payloads s ++ [saved]) (db_deliveries s) (next_pk s + 1) s).

(** [event_delivery.save()] / [EventDelivery.objects.create] *)
Definition save_delivery (d : EventDelivery) : M EventDelivery :=
  fun s =>
    if db_write_fails ext s (WriteDelivery d)
    then Raise (DatabaseError "delivery") s
    else
      let saved := {| delivery_pk := Some (next_pk s);
                      delivery_status := delivery_status d;
                      delivery_event_type := delivery_event_type d;
                      delivery_payload := delivery_payload d;
                      delivery_webhook := delivery_webhook d |} in
      Ret saved (set_db (db_payloads s) (db_deliveries s ++ [saved]) (next_pk s + 1) s).

(** ** Collaborators, as effects on the trace

    The helpers below live in other modules of the repository.  Each is
    taken as one recorded call; where the caller goes on with what the helper
    hands back or changes, that is spelled out. *)

Definition logger (level : LogLevel) (msg : string) : M unit := call (EvLog level msg).

(** Modelled from the spec: [delivery_update] of [..utils] sets the status of
    the delivery object it is given; callers see the change. *)
Definition delivery_update (d : EventDelivery) (st : EventDeliveryStatus) : M EventDelivery :=
  call (EvDeliveryUpdate d st) ;;; ret (with_status d st).

(** Modelled from the spec: [record_external_request] of [..metrics] records
    one external-request metric for the response it is given. *)
Definition record_external_request (url : string) (r : WebhookResponse) (size : nat) : M unit :=
  call (EvRecordExternalRequest url r size).

(** Modelled from the spec: [create_attempt] of [..utils] builds one attempt
    record bound to the delivery, saved when [with_save] is set. *)
Definition create_attempt (d : EventDelivery) (task_id : option string) (with_save : bool)
  : M EventDeliveryAttempt :=
  let a := {| attempt_delivery := d; attempt_task_id := task_id; attempt_saved := with_save |} in
  call (EvCreateAttempt a) ;;; ret a.

(** Modelled from the spec: the bookkeeping of step 7 of the dispatcher. *)
Definition attempt_update (a : EventDeliveryAttempt) (r : WebhookResponse) : M unit :=
  call (EvAttemptUpdate a r).

Definition report_event_delivery_attempt (a : EventDeliveryAttempt) : M unit :=
  call (EvReportEventDeliveryAttempt a).

Definition save_unsuccessful_delivery_attempt (a : EventDeliveryAttempt) : M unit :=
  call (EvSaveUnsuccessfulDeliveryAttempt a).

Definition clear_successful_delivery (d : EventDelivery) : M unit :=
  call (EvClearSuccessfulDelivery d).

(** Whether the task framework still resubmits the task: it has been
    retried fewer than [max_retries] times. *)
Definition retries_left (self : Task) : bool :=
  Z.of_nat (task_retries self) <? task_max_retries self.

(** The delay before the resubmitted task runs: [retry_backoff], doubled for
    every retry made so far. *)
Definition retry_countdown (self : Task) : Z :=
  task_retry_backoff self * 2 ^ Z.of_nat (task_retries self).

(** Modelled from the spec: [handle_webhook_retry] of [..utils] triggers the
    task framework's own retry mechanism.  While the task has retries left,
    the framework resubmits it after an exponential backoff and the running
    attempt ends there: the framework's [Retry] exception leaves the task, so
    that attempt makes no transaction event.  Once the retries are used up
    nothing is resubmitted and the call returns to the task, which goes on
    with the parsed response discarded. *)
Definition handle_webhook_retry (self : Task) (w : Webhook) (r : WebhookResponse)
    (d : EventDelivery) (a : EventDeliveryAttempt) : M unit :=
  call (EvHandleWebhookRetry self w r d a) ;;;
  if retries_left self
  then call (EvTaskRetry self (retry_countdown self)) ;;;
       raise (Retry (retry_countdown self))
  else ret tt.

(** Modelled from the spec: the helpers of [payment.utils] that turn a
    response into a transaction event, synthesize a failed transaction event,
    and recompute the checkout's refundable amount. *)
Definition create_transaction_event_from_request_and_webhook_response
    (request_event : TransactionEvent) (a : App) (response_data : PyValue) : M unit :=
  call (EvCreateTransactionEventFromRequestAndWebhookResponse request_event a response_data).

Definition create_failed_transaction_event (event : TransactionEvent) (cause : string)
  : M unit :=
  call (EvCreateFailedTransactionEvent event cause).

Definition recalculate_refundable_for_checkout (transaction : Z) (event : TransactionEvent)
  : M unit :=
  call (EvRecalculateRefundableForCheckout transaction event).

(** Modelled from the spec: [call_event] hands the task with its arguments to
    the background queue. *)
Definition call_event (delivery_id : option Z) (event_id : Z) : M unit :=
  call (EvCallEvent delivery_id event_id).

(** The scheme test of line 119. *)
Definition scheme_supported (url : string) : bool :=
  let scheme := lower (urlparse_scheme ext url) in
  (String.eqb scheme WebhookSchemes.HTTP || String.eqb scheme WebhookSchemes.HTTPS)%bool.

(** ** [_send_webhook_request_sync] *)

Definition _send_webhook_request_sync (delivery : EventDelivery) (timeout : Z)
    (attempt : option EventDeliveryAttempt) : M (WebhookResponse * PyValue) :=
  let event_payload := delivery_payload delivery in
  let data := payload_body event_payload in
  let webhook := delivery_webhook delivery in
  domain <- ask (get_domain ext) ;;
  let message := data in
  let payload_size := String.length message in
  let signature := signature_for_payload ext message (secret_key webhook) in
  let response := {| content := ""; response_status_code := None; status := FAILED |} in
  let response_data := PyNone in
  if negb (scheme_supported (target_url webhook)) then
    _ <- delivery_update delivery FAILED ;;
    record_external_request (target_url webhook) response payload_size ;;;
    raise (ValueError "Unknown webhook scheme" (urlparse_scheme ext (target_url webhook)))
  else
    logger DEBUG "[Webhook] Sending payload to %r for event %r." ;;;
    attempt <- match attempt with
               | None => create_attempt delivery None false
               | Some a => ret a
               end ;;
    (* with webhooks_otel_trace(...) as span: try ... *)
    let req := {| http_target_url := target_url webhook;
                  http_message := message;
                  http_domain := domain;
                  http_signature := signature;
                  http_event_type := delivery_event_type delivery;
                  http_timeout := timeout;
                  http_custom_headers := custom_headers webhook |} in
    response <- ask (fun s => send_webhook_using_http ext s req) ;;
    call (EvSendWebhookUsingHttp req response) ;;;
    out <- match json_loads ext (content response) with
           | None =>
               (* except JSONDecodeError *)
               logger INFO "[Webhook] Failed parsing JSON response from %r: %r.ID of failed DeliveryAttempt: %r . " ;;;
               ret (set_response_status response FAILED, response_data)
           | Some parsed =>
               (* else *)
               (if status_eqb (status response) FAILED
                then logger INFO "[Webhook] Failed request to %r: %r. ID of failed DeliveryAttempt: %r . "
                else ret tt) ;;;
               (if status_eqb (status response) SUCCESS
                then logger DEBUG "[Webhook] Success response from %r.Successful DeliveryAttempt id: %r"
                else ret tt) ;;;
               ret (response, parsed)
           end ;;
    let response := fst out in
    let response_data := snd out in
    (* finally *)
    (if status_eqb (status response) FAILED then call EvSpanSetStatusError else ret tt) ;;;
    record_external_request (target_url webhook) response payload_size ;;;
    attempt_update attempt response ;;;
    delivery <- delivery_update delivery (status response) ;;
    report_event_delivery_attempt attempt ;;;
    save_unsuccessful_delivery_attempt attempt ;;;
    clear_successful_delivery delivery ;;;
    ret (response, response_data).

(** ** [send_webhook_request_sync] *)

Definition send_webhook_request_sync (delivery : EventDelivery) (timeout : Z) : M PyValue :=
  out <- _send_webhook_request_sync delivery timeout None ;;
  let response := fst out in
  let response_data := snd out in
  ret (if status_eqb (status response) SUCCESS then response_data else PyNone).

(** ** [trigger_webhook_sync_if_not_cached] and the cache *)

(** [cache.get(key)]: the stored value while it has not expired, else [None]. *)
Definition cache_get (key : string) (s : World) : PyValue :=
  match cache s !! key with
  | Some (v, expires) => if now s <? expires then v else PyNone
  | None => PyNone
  end.

(** [cache.set(key, value, timeout=timeout)] *)
Definition cache_set (key : string) (v : PyValue) (timeout : Z) : M unit :=
  fun s => Ret tt {| trace := trace s;
                     cache := <[key := (v, now s + timeout)]> (cache s);
                     now := now s;
                     db_payloads := db_payloads s;
                     db_deliveries := db_deliveries s;
                     next_pk := next_pk s |}.

(** Modelled from the spec: [initialize_request] builds the request context
    shared between sync event calls. *)
Definition initialize_request (requestor : option string) (sync_event : bool)
    (event_type : string) (allow_replica : bool) : M Request :=
  let r := {| request_requestor := requestor;
              request_sync_event := sync_event;
              request_event_type := event_type;
              request_allow_replica := allow_replica |} in
  call (EvInitializeRequest r) ;;; ret r.

(** ** [create_delivery_for_subscription_sync_event] *)

(** Lines 289-302: the payload and the delivery built from the generated
    [data], and written when [with_save] is set. *)
Definition create_pair (event_type : string) (webhook : Webhook) (data : Dict)
    (with_save : bool) : M EventDelivery :=
  allow_writer (atomic (
    let event_payload :=
      {| payload_pk := None; payload_body := json_dumps ext (PyDict data) |} in
    let event_delivery :=
      {| delivery_pk := None;
         delivery_status := PENDING;
         delivery_event_type := event_type;
         delivery_payload := event_payload;
         delivery_webhook := webhook |} in
    call (EvNewEventDelivery event_delivery) ;;;
    if with_save then
      event_payload <- save_payload event_payload ;;
      (* the delivery holds a reference to the payload just saved *)
      save_delivery
        {| delivery_pk := None;
           delivery_status := PENDING;
           delivery_event_type := event_type;
           delivery_payload := event_payload;
           delivery_webhook := webhook |}
    else ret event_delivery)).

Definition create_delivery_for_subscription_sync_event
    (event_type : string) (subscribable_object : SubscribableObject) (webhook : Webhook)
    (requestor : option string) (request : option Request) (allow_replica : bool)
    (pregenerated_payload : option Dict) (with_save : bool) : M (option EventDelivery) :=
  if negb (WEBHOOK_TYPES_MAP ext event_type) then
    logger INFO "Skipping subscription webhook. Event %s is not subscribable." ;;;
    ret None
  else
    request <- match request with
               | None => initialize_request requestor (WebhookEventSyncType_ALL ext event_type)
                           event_type allow_replica
               | Some r => ret r
               end ;;
    data <- (if negb (truthy_dict pregenerated_payload) then
               g <- ask (fun s => generate_payload_from_subscription ext s event_type
                                    subscribable_object (subscription_query webhook)
                                    request (app webhook)) ;;
               call (EvGeneratePayloadFromSubscription event_type webhook) ;;;
               match g with
               | GenData d => ret d
               | GenRaise e => raise e
               end
             else ret pregenerated_payload) ;;
    match data with
    | None | Some [] =>
        logger INFO "No payload was generated with subscription for event: %s" ;;;
        ret None
    | Some (entry :: entries) =>
        event_delivery <- create_pair event_type webhook (entry :: entries) with_save ;;
        ret (Some event_delivery)
    end.

(** ** [trigger_webhook_sync] *)

(** The function as defined at lines 305-342. *)
Definition trigger_webhook_sync_def
    (event_type : string) (payload : string) (webhook : Webhook) (allow_replica : bool)
    (subscribable_object : SubscribableObject) (timeout : option Z)
    (request : option Request) (requestor : option string)
    (pregenerated_subscription_payload : option Dict) : M PyValue :=
  delivery <- (if truthy_str (subscription_query webhook) then
                 create_delivery_for_subscription_sync_event event_type subscribable_object
                   webhook requestor request allow_replica
                   pregenerated_subscription_payload false
               else
                 let d := {| delivery_pk := None;
                             delivery_status := PENDING;
                             delivery_event_type := event_type;
                             delivery_payload := {| payload_pk := None; payload_body := payload |};
                             delivery_webhook := webhook |} in
                 call (EvNewEventDelivery d) ;;; ret (Some d)) ;;
  match delivery with
  | None => ret PyNone
  | Some delivery =>
      (* kwargs = {timeout: timeout} if timeout else {} *)
      let timeout := if truthy_num timeout
                     then match timeout with Some t => t | None => WEBHOOK_SYNC_TIMEOUT ext end
                     else WEBHOOK_SYNC_TIMEOUT ext in
      send_webhook_request_sync delivery timeout
  end.

(** Modelled from the spec: the decorator returned by [initialize_breaker_board]
    (the breaker itself is not part of this module).  It may short-circuit a
    call without invoking the wrapped function, returning a failure-shaped
    result, and passes every other call through unchanged. *)
Definition breaker_wrap (short_circuits : World -> string -> Webhook -> bool)
    (func : string -> string -> Webhook -> bool -> SubscribableObject -> option Z ->
            option Request -> option string -> option Dict -> M PyValue)
    (event_type : string) (payload : string) (webhook : Webhook) (allow_replica : bool)
    (subscribable_object : SubscribableObject) (timeout : option Z)
    (request : option Request) (requestor : option string)
    (pregenerated_subscription_payload : option Dict) : M PyValue :=
  fun s =>
    if short_circuits s event_type webhook then Ret PyNone s
    else func event_type payload webhook allow_replica subscribable_object timeout
           request requestor pregenerated_subscription_payload s.

(** The module-level name after lines 345-346. *)
Definition trigger_webhook_sync :=
  match breaker_board ext with
  | Some board => breaker_wrap board trigger_webhook_sync_def
  | None => trigger_webhook_sync_def
  end.

Definition trigger_webhook_sync_if_not_cached
    (event_type : string) (payload : string) (webhook : Webhook) (cache_data : PyValue)
    (allow_replica : bool) (subscribable_object : SubscribableObject)
    (request_timeout : option Z) (cache_timeout : option Z)
    (request : option Request) (requestor : option string)
    (pregenerated_subscription_payload : option Dict) : M PyValue :=
  let cache_key := generate_cache_key_for_webhook ext cache_data (target_url webhook)
                     event_type (app_id webhook) in
  response_data <- ask (cache_get cache_key) ;;
  if is_none response_data then
    response_data <- trigger_webhook_sync event_type payload webhook allow_replica
                       subscribable_object request_timeout request requestor
                       pregenerated_subscription_payload ;;
    (if negb (is_none response_data) then
       cache_set cache_key response_data
         (if truthy_num cache_timeout
          then match cache_timeout with Some t => t | None => WEBHOOK_CACHE_DEFAULT_TIMEOUT ext end
          else WEBHOOK_CACHE_DEFAULT_TIMEOUT ext)
     else ret tt) ;;;
    ret response_data
  else ret response_data.

(** ** [trigger_taxes_all_webhooks_sync] *)

Section TaxesLoop.

Variable event_type : string.
Variable generate_payload : World -> string.
Variable expected_lines_count : Z.
Variable subscribable_object : SubscribableObject.
Variable requestor : option string.
Variable pregenerated_subscription_payloads : list (Z * Dict).

(** Lines 372-403: the delivery built for [webhook], with the locals as the
    branch leaves them. *)
Definition taxes_delivery (webhook : Webhook) (locals : TaxesLocals)
  : M (option EventDelivery * TaxesLocals) :=
  let request_context := fst locals in
  let event_payload := snd locals in
  if truthy_str (subscription_query webhook) then
    request_context <- match request_context with
                       | None => initialize_request requestor
                                   (WebhookEventSyncType_ALL ext event_type) event_type false
                       | Some r => ret r
                       end ;;
    let pregenerated_payload :=
      get_pregenerated_subscription_payload ext webhook pregenerated_subscription_payloads in
    delivery <- create_delivery_for_subscription_sync_event event_type subscribable_object
                  webhook requestor (Some request_context) false pregenerated_payload false ;;
    ret (delivery, (Some request_context, event_payload))
  else
    event_payload <- match event_payload with
                     | None =>
                         body <- ask generate_payload ;;
                         call EvGeneratePayload ;;;
                         ret {| payload_pk := None; payload_body := body |}
                     | Some p => ret p
                     end ;;
    let delivery := {| delivery_pk := None;
                       delivery_status := PENDING;
                       delivery_event_type := event_type;
                       delivery_payload := event_payload;
                       delivery_webhook := webhook |} in
    call (EvNewEventDelivery delivery) ;;;
    ret (Some delivery, (request_context, Some event_payload)).

(** The body of the loop, lines 372-416. *)
Definition taxes_iteration (webhook : Webhook) (locals : TaxesLocals)
  : M (LoopCtl TaxesLocals (option (TaxData ext))) :=
  built <- taxes_delivery webhook locals ;;
  match fst built with
  | None => ret (Return None)
  | Some delivery =>
      response_data <- send_webhook_request_sync delivery (WEBHOOK_SYNC_TIMEOUT ext) ;;
      match parse_tax_data ext response_data expected_lines_count with
      | inl e =>
          logger WARNING "Webhook response for event %s is invalid: %s" ;;;
          ret (Continue (snd built))
      | inr parsed_response => ret (Return (Some parsed_response))
      end
  end.

(** [for webhook in webhooks: ...] followed by [return None]. *)
Fixpoint taxes_loop (webhooks : list Webhook) (locals : TaxesLocals)
  : M (option (TaxData ext)) :=
  match webhooks with
  | [] => ret None
  | webhook :: rest =>
      ctl <- taxes_iteration webhook locals ;;
      match ctl with
      | Continue locals' => taxes_loop rest locals'
      | Return r => ret r
      end
  end.

End TaxesLoop.

Definition trigger_taxes_all_webhooks_sync
    (event_type : string) (generate_payload : World -> string) (expected_lines_count : Z)
    (subscribable_object : SubscribableObject) (requestor : option string)
    (pregenerated_subscription_payloads : option (list (Z * Dict)))
  : M (option (TaxData ext)) :=
  let pregenerated_subscription_payloads :=
    match pregenerated_subscription_payloads with
    | None => []
    | Some p => p
    end in
  webhooks <- ask (fun s => get_webhooks_for_event ext s event_type None) ;;
  taxes_loop event_type generate_payload expected_lines_count subscribable_object
    requestor pregenerated_subscription_payloads webhooks (None, None).

(** ** [handle_transaction_request_task] *)

(** The task instance bound by the decorator of lines 71-75. *)
Definition bound_task (request_id : string) (retries : nat) : Task :=
  {| task_request_id := request_id;
     task_retries := retries;
     task_retry_backoff := 10;
     task_max_retries := 5 |}.

(** [try: ... except PaymentError] around a call. *)
Definition catch_payment_error {A} (body : M A) (handler : string -> M A) : M A :=
  fun s => match body s with
           | Raise (PaymentError msg) s' => handler msg s'
           | other => other
           end.

Definition handle_transaction_request_task (self : Task) (delivery_id : Z)
    (request_event_id : Z) : M unit :=
  request_event <- ask (fun s => find_transaction_event ext s request_event_id) ;;
  match request_event with
  | None =>
      logger ERROR "Cannot find the request event with id: %s for transaction-request webhook."
  | Some request_event =>
      delivery <- ask (fun s => get_delivery_for_webhook ext s delivery_id) ;;
      match delivery with
      | None =>
          recalculate_refundable_for_checkout
            (transaction_event_transaction request_event) request_event ;;;
          logger ERROR "Cannot find the delivery with id: %s for transaction-request webhook."
      | Some delivery =>
          attempt <- create_attempt delivery (Some (task_request_id self)) true ;;
          out <- _send_webhook_request_sync delivery (WEBHOOK_SYNC_TIMEOUT ext) (Some attempt) ;;
          let response := fst out in
          let response_data := snd out in
          response_data <-
            (if (truthy_num (response_status_code response)
                 && match response_status_code response with
                    | Some code => 500 <=? code
                    | None => false
                    end)%bool
             then
               (* [delivery] is the object whose status the dispatcher has updated *)
               handle_webhook_retry self (delivery_webhook delivery) response
                 (with_status delivery (status response)) attempt ;;;
               ret PyNone
             else ret response_data) ;;
          create_transaction_event_from_request_and_webhook_response
            request_event (app (delivery_webhook delivery)) response_data
      end
  end.

(** ** [trigger_transaction_request] *)

(** Lines 471-480: the payload and the delivery of a static payload, both
    written. *)
Definition create_static_pair (event_type : string) (webhook : Webhook) (payload : string)
  : M EventDelivery :=
  allow_writer (atomic (
    event_payload <- save_payload {| payload_pk := None; payload_body := payload |} ;;
    let d := {| delivery_pk := None;
                delivery_status := PENDING;
                delivery_event_type := event_type;
                delivery_payload := event_payload;
                delivery_webhook := webhook |} in
    call (EvNewEventDelivery d) ;;;
    save_delivery d)).

Definition trigger_transaction_request
    (transaction_data : TransactionActionData) (event_type : string)
    (requestor : option string) : M unit :=
  let fail cause :=
    create_failed_transaction_event (transaction_data_event transaction_data) cause ;;;
    recalculate_refundable_for_checkout
      (transaction_data_transaction transaction_data)
      (transaction_data_event transaction_data) in
  match transaction_app_owner transaction_data with
  | None =>
      fail "Cannot process the action as the given transaction is not attached to any app."
  | Some owner =>
      webhooks <- ask (fun s => get_webhooks_for_event ext s event_type (Some [app_pk owner])) ;;
      match webhooks with
      | [] => fail "Cannot find a webhook that can process the action."
      | webhook :: _ =>
          delivery <-
            (if truthy_str (subscription_query webhook) then
               catch_payment_error
                 (create_delivery_for_subscription_sync_event event_type
                    (TransactionObject transaction_data) webhook None None false None true)
                 (fun msg =>
                    logger WARNING "Failed to create delivery for subscription webhook: %s" ;;;
                    ret None)
             else
               let payload :=
                 generate_transaction_action_request_payload ext transaction_data requestor in
               delivery <- create_static_pair event_type webhook payload ;;
               ret (Some delivery)) ;;
          match delivery with
          | None => fail "Cannot generate a payload for the action."
          | Some delivery =>
              call_event (delivery_pk delivery)
                (transaction_event_id (transaction_data_event transaction_data))
          end
      end
  end.

End Transport.

(** ** Observations on traces *)

(** The HTTP exchanges of a trace, oldest first. *)
Fixpoint dispatches (t : list Event) : list (HttpRequest * WebhookResponse) :=
  match t with
  | [] => []
  | EvSendWebhookUsingHttp req r :: rest => (req, r) :: dispatches rest
  | _ :: rest => dispatches rest
  end.

(** The delivery objects constructed along a trace. *)
Fixpoint deliveries_created (t : list Event) : list EventDelivery :=
  match t with
  | [] => []
  | EvNewEventDelivery d :: rest => d :: deliveries_created rest
  | _ :: rest => deliveries_created rest
  end.

(** The attempt records created along a trace. *)
Fixpoint attempts_created (t : list Event) : list EventDeliveryAttempt :=
  match t with
  | [] => []
  | EvCreateAttempt a :: rest => a :: attempts_created rest
  | _ :: rest => attempts_created rest
  end.

(** How many log records of a given level a trace holds. *)
Definition level_eqb (a b : LogLevel) : bool :=
  match a, b with
  | DEBUG, DEBUG | INFO, INFO | WARNING, WARNING | ERROR, ERROR => true
  | _, _ => false
  end.

Fixpoint count_logs (level : LogLevel) (t : list Event) : nat :=
  match t with
  | [] => 0%nat
  | EvLog l _ :: rest => ((if level_eqb l level then 1 else 0) + count_logs level rest)%nat
  | _ :: rest => count_logs level rest
  end.

(** The retries handed to the task framework along a trace. *)
Fixpoint retries_requested (t : list Event) : list Task :=
  match t with
  | [] => []
  | EvHandleWebhookRetry task _ _ _ _ :: rest => task :: retries_requested rest
  | _ :: rest => retries_requested rest
  end.

(** The resubmissions the task framework made along a trace, each with its
    delay. *)
Fixpoint retries_scheduled (t : list Event) : list (Task * Z) :=
  match t with
  | [] => []
  | EvTaskRetry task countdown :: rest => (task, countdown) :: retries_scheduled rest
  | _ :: rest => retries_scheduled rest
  end.

(** ** A concrete environment for the examples *)

Module Demo.

(** The text before the first colon, as [urlparse] reports the scheme of
    the URLs used here. *)
Fixpoint scheme_of (url : string) : string :=
  match url with
  | EmptyString => EmptyString
  | String c rest =>
      if Ascii.eqb c ":" then EmptyString else String c (scheme_of rest)
  end.

(** [json.loads] on the handful of documents the examples exchange; any
    other text is taken as undecodable. *)
Definition loads (doc : string) : option PyValue :=
  if String.eqb doc "null" then Some PyNone
  else if String.eqb doc "true" then Some (PyBool true)
  else if String.eqb doc "{}" then Some (PyDict [])
  else if String.eqb doc "[]" then Some (PyList [])
  else if String.eqb doc "[1]" then Some (PyList [PyInt 1])
  else if String.eqb doc "[1, 2]" then Some (PyList [PyInt 1; PyInt 2])
  else None.

(** A subscriber per host: what each one answers. *)
Definition http (_ : World) (req : HttpRequest) : WebhookResponse :=
  let url := http_target_url req in
  if String.eqb url "https://ok.example/hook" then
    {| content := "[1, 2]"; response_status_code := Some 200; status := SUCCESS |}
  else if String.eqb url "https://garbled.example/hook" then
    {| content := "not-json"; response_status_code := Some 200; status := SUCCESS |}
  else if String.eqb url "https://short.example/hook" then
    {| content := "[1]"; response_status_code := Some 200; status := SUCCESS |}
  else if String.eqb url "https://null.example/hook" then
    {| content := "null"; response_status_code := Some 200; status := SUCCESS |}
  else if String.eqb url "http://down.example/hook" then
    {| content := "{}"; response_status_code := Some 503; status := FAILED |}
  else if String.eqb url "http://denied.example/hook" then
    {| content := "{}"; response_status_code := Some 400; status := FAILED |}
  else
    {| content := "connection refused"; response_status_code := None; status := FAILED |}.

(** Tax data here is the list of line amounts; a response is valid when it
    is a list of integers of the expected length. *)
Fixpoint ints (items : list PyValue) : option (list Z) :=
  match items with
  | [] => Some []
  | PyInt z :: rest => match ints rest with Some zs => Some (z :: zs) | None => None end
  | _ :: _ => None
  end.

Definition parse (response_data : PyValue) (expected_lines_count : Z) : string + list Z :=
  match response_data with
  | PyList items =>
      match ints items with
      | Some zs => if Z.of_nat (length zs) =? expected_lines_count
                   then inr zs else inl "wrong number of lines"
      | None => inl "not a number"
      end
  | _ => inl "not a list"
  end.

Definition wh (url : string) (query : option string) : Webhook :=
  {| target_url := url; secret_key := Some "secret"; custom_headers := [];
     subscription_query := query; app := {| app_pk := 7 |} |}.

Definition hook_ok := wh "https://ok.example/hook" None.
Definition hook_garbled := wh "https://garbled.example/hook" None.
Definition hook_short := wh "https://short.example/hook" None.
Definition hook_null := wh "https://null.example/hook" None.
Definition hook_down := wh "http://down.example/hook" None.
Definition hook_denied := wh "http://denied.example/hook" None.
Definition hook_ftp := wh "ftp://x" None.
Definition hook_subscribed := wh "https://ok.example/hook" (Some "subscription { event }").
Definition hook_subscribed_empty :=
  wh "https://ok.example/hook" (Some "subscription { nothing }").

(** The subscription generator: data unless the query selects nothing. *)
Definition generate (_ : World) (event_type : string) (_ : SubscribableObject)
    (query : option string) (_ : Request) (_ : App) : Generated :=
  match query with
  | Some q => if String.eqb q "subscription { nothing }" then GenData None
              else GenData (Some [("event", PyStr event_type)])
  | None => GenData None
  end.

(** The registry: three tax subscribers, one transaction subscriber. *)
Definition registry (_ : World) (event_type : string) (apps : option (list Z))
  : list Webhook :=
  if String.eqb event_type "checkout_calculate_taxes"
  then [hook_garbled; hook_short; hook_ok]
  else if String.eqb event_type "order_calculate_taxes"
  then [hook_garbled; hook_subscribed_empty; hook_ok]
  else if String.eqb event_type "transaction_charge_requested"
  then match apps with
       | Some [7] => [hook_ok]
       | _ => []
       end
  else [].

Definition ext (fails : World -> DbWrite -> bool) : Externals :=
  {| WEBHOOK_SYNC_TIMEOUT := 20;
     WEBHOOK_CACHE_DEFAULT_TIMEOUT := 300;
     WEBHOOK_TYPES_MAP := fun e => negb (String.eqb e "not_subscribable");
     WebhookEventSyncType_ALL := fun _ => true;
     urlparse_scheme := scheme_of;
     json_loads := loads;
     json_dumps := fun _ => "{}";
     get_domain := fun _ => "shop.example";
     signature_for_payload := fun _ _ => "sig";
     send_webhook_using_http := http;
     generate_payload_from_subscription := generate;
     get_pregenerated_subscription_payload := fun _ _ => None;
     generate_cache_key_for_webhook := fun _ url event_type _ => (url ++ "|" ++ event_type)%string;
     get_webhooks_for_event := registry;
     TaxData := list Z;
     parse_tax_data := parse;
     find_transaction_event := fun _ i => Some {| transaction_event_id := i;
                                                   transaction_event_transaction := 1 |};
     get_delivery_for_webhook := fun s i =>
       head (filter (fun d => bool_decide (delivery_pk d = Some i)) (db_deliveries s));
     generate_transaction_action_request_payload := fun _ _ => "{}";
     db_write_fails := fails;
     breaker_board := None |}.

Definition never_fails (_ : World) (_ : DbWrite) : bool := false.

(** The database refuses to write deliveries. *)
Definition delivery_write_fails (_ : World) (w : DbWrite) : bool :=
  match w with WriteDelivery _ => true | WritePayload _ => false end.

Definition world0 : World :=
  {| trace := []; cache := ∅; now := 0; db_payloads := []; db_deliveries := [];
     next_pk := 1 |}.

Definition delivery_to (w : Webhook) : EventDelivery :=
  {| delivery_pk := None; delivery_status := PENDING;
     delivery_event_type := "checkout_calculate_taxes";
     delivery_payload := {| payload_pk := None; payload_body := "{}" |};
     delivery_webhook := w |}.

(** A world whose delivery table holds two saved deliveries. *)
Definition saved_delivery : EventDelivery :=
  {| delivery_pk := Some 1; delivery_status := PENDING;
     delivery_event_type := "transaction_charge_requested";
     delivery_payload := {| payload_pk := Some 1; payload_body := "{}" |};
     delivery_webhook := hook_down |}.

Definition saved_delivery_denied : EventDelivery :=
  {| delivery_pk := Some 2; delivery_status := PENDING;
     delivery_event_type := "transaction_charge_requested";
     delivery_payload := {| payload_pk := Some 1; payload_body := "{}" |};
     delivery_webhook := hook_denied |}.

Definition world1 : World :=
  {| trace := []; cache := ∅; now := 0;
     db_payloads := [{| payload_pk := Some 1; payload_body := "{}" |}];
     db_deliveries := [saved_delivery; saved_delivery_denied];
     next_pk := 3 |}.

End Demo.

(** ** The dispatcher, step by step *)

Section DispatchSteps.

Variable ext : Externals.
Variable d : EventDelivery.
Variable timeout : Z.
Variable attempt : option EventDeliveryAttempt.
Variable s : World.

(** The attempt the dispatcher works with: the caller's, or a fresh unsaved one. *)
Definition dispatch_attempt : EventDeliveryAttempt :=
  match attempt with
  | Some a => a
  | None => {| attempt_delivery := d; attempt_task_id := None; attempt_saved := false |}
  end.

(** The calls made before the request goes out (lines 124-130). *)
Definition dispatch_prelude : list Event :=
  EvLog DEBUG "[Webhook] Sending payload to %r for event %r."
  :: match attempt with
     | Some _ => []
     | None => [EvCreateAttempt dispatch_attempt]
     end.

(** The request handed to the transport (lines 136-144). *)
Definition dispatch_request : HttpRequest :=
  {| http_target_url := target_url (delivery_webhook d);
     http_message := payload_body (delivery_payload d);
     http_domain := get_domain ext s;
     http_signature := signature_for_payload ext (payload_body (delivery_payload d))
                         (secret_key (delivery_webhook d));
     http_event_type := delivery_event_type d;
     http_timeout := timeout;
     http_custom_headers := custom_headers (delivery_webhook d) |}.

(** What the transport answers to it. *)
Definition transport_answer : WebhookResponse :=
  send_webhook_using_http ext (emits dispatch_prelude s) dispatch_request.

(** The pair the dispatcher returns for a transport answer (lines 145-154). *)
Definition classify (resp : WebhookResponse) : WebhookResponse * PyValue :=
  match json_loads ext (content resp) with
  | None => (set_response_status resp FAILED, PyNone)
  | Some parsed => (resp, parsed)
  end.

(** The log record of lines 146-169. *)
Definition dispatch_log (resp : WebhookResponse) : list Event :=
  match json_loads ext (content resp) with
  | None =>
      [EvLog INFO "[Webhook] Failed parsing JSON response from %r: %r.ID of failed DeliveryAttempt: %r . "]
  | Some _ =>
      match status resp with
      | FAILED => [EvLog INFO "[Webhook] Failed request to %r: %r. ID of failed DeliveryAttempt: %r . "]
      | SUCCESS => [EvLog DEBUG "[Webhook] Success response from %r.Successful DeliveryAttempt id: %r"]
      | PENDING => []
      end
  end.

(** Every call of a dispatch that goes through, in order. *)
Definition dispatch_events : list Event :=
  let r := fst (classify transport_answer) in
  dispatch_prelude
  ++ [EvSendWebhookUsingHttp dispatch_request transport_answer]
  ++ dispatch_log transport_answer
  ++ match status r with FAILED => [EvSpanSetStatusError] | _ => [] end
  ++ [EvRecordExternalRequest (target_url (delivery_webhook d)) r
        (String.length (payload_body (delivery_payload d)));
      EvAttemptUpdate dispatch_attempt r;
      EvDeliveryUpdate d (status r);
      EvReportEventDeliveryAttempt dispatch_attempt;
      EvSaveUnsuccessfulDeliveryAttempt dispatch_attempt;
      EvClearSuccessfulDelivery (with_status d (status r))].

End DispatchSteps.

(** ** Runs of the fallback loop *)

(** The URLs a trace sent HTTP requests to, oldest first. *)
Definition contacted (t : list Event) : list string :=
  map (fun exchange => http_target_url (fst exchange)) (dispatches t).

Section FallbackRuns.

Variable ext : Externals.
Variable event_type : string.
Variable generate_payload : World -> string.
Variable expected_lines_count : Z.
Variable subscribable_object : SubscribableObject.
Variable requestor : option string.
Variable pregenerated_subscription_payloads : list (Z * Dict).

(** The request context a subscription webhook is served with, and the call
    that builds it when the loop has none yet (lines 373-378). *)
Definition loop_request_context (locals : TaxesLocals) : Request :=
  match fst locals with
  | Some r => r
  | None => {| request_requestor := requestor;
               request_sync_event := WebhookEventSyncType_ALL ext event_type;
               request_event_type := event_type;
               request_allow_replica := false |}
  end.

Definition loop_request_init (locals : TaxesLocals) : list Event :=
  match fst locals with
  | Some _ => []
  | None => [EvInitializeRequest (loop_request_context locals)]
  end.

(** What [webhook] answers when the loop reaches it with [locals] in world
    [s]: the body handed back by [send_webhook_request_sync], with the locals
    and the world after the exchange.  There is no answer when no delivery
    is built for the webhook or when building or sending it raises. *)
Definition webhook_reply (webhook : Webhook) (locals : TaxesLocals) (s : World)
  : option (PyValue * TaxesLocals * World) :=
  match taxes_delivery ext event_type generate_payload subscribable_object requestor
          pregenerated_subscription_payloads webhook locals s with
  | Ret (Some delivery, locals') s1 =>
      match send_webhook_request_sync ext delivery (WEBHOOK_SYNC_TIMEOUT ext) s1 with
      | Ret response_data s2 => Some (response_data, locals', s2)
      | Raise _ _ => None
      end
  | _ => None
  end.

(** The locals and the world after every webhook of [webhooks], tried in
    order from [locals] and [s], answered with a body that fails tax
    validation (and drew the warning of lines 409-414); [None] when one of
    them did not. *)
Fixpoint all_rejected (webhooks : list Webhook) (locals : TaxesLocals) (s : World)
  : option (TaxesLocals * World) :=
  match webhooks with
  | [] => Some (locals, s)
  | webhook :: rest =>
      match webhook_reply webhook locals s with
      | Some (response_data, locals', s2) =>
          match parse_tax_data ext response_data expected_lines_count with
          | inl _ =>
              all_rejected rest locals'
                (emit (EvLog WARNING "Webhook response for event %s is invalid: %s") s2)
          | inr _ => None
          end
      | None => None
      end
  end.

End FallbackRuns.

(** ** The response cache *)

(** [s'] has the cache and the clock of [s]. *)
Definition same_store (s s' : World) : Prop :=
  cache s' = cache s /\ now s' = now s.

(** [cache_timeout or WEBHOOK_CACHE_DEFAULT_TIMEOUT] *)
Definition resolved_cache_timeout (ext : Externals) (cache_timeout : option Z) : Z :=
  if truthy_num cache_timeout
  then match cache_timeout with Some t => t | None => WEBHOOK_CACHE_DEFAULT_TIMEOUT ext end
  else WEBHOOK_CACHE_DEFAULT_TIMEOUT ext.

(** The world [s] once [d] units of time have passed. *)
Definition advance (d : Z) (s : World) : World :=
  {| trace := trace s;
     cache := cache s;
     now := now s + d;
     db_payloads := db_payloads s;
     db_deliveries := db_deliveries s;
     next_pk := next_pk s |}.

(** Whether the task takes the retry branch (line 95). *)
Definition server_error (r : WebhookResponse) : Prop :=
  exists code, response_status_code r = Some code /\ 500 <= code.

(** ** The payload and delivery tables *)

(** Between [s] and [s'] the two tables gained nothing, or they gained one
    payload row and one delivery row that points at it. *)
Definition written_together (s s' : World) : Prop :=
  (db_payloads s' = db_payloads s /\ db_deliveries s' = db_deliveries s)
  \/ (exists p d,
        db_payloads s' = db_payloads s ++ [p]
        /\ db_deliveries s' = db_deliveries s ++ [d]
        /\ delivery_payload d = p).

(** ** The delivery factory, step by step *)

Section Factory.

Variable ext : Externals.
Variable event_type : string.
Variable subscribable_object : SubscribableObject.
Variable webhook : Webhook.
Variable requestor : option string.
Variable request : option Request.
Variable allow_replica : bool.
Variable pregenerated_payload : option Dict.

(** The request context the factory works with and the call that builds it. *)
Definition factory_request : Request :=
  match request with
  | Some r => r
  | None => {| request_requestor := requestor;
               request_sync_event := WebhookEventSyncType_ALL ext event_type;
               request_event_type := event_type;
               request_allow_replica := allow_replica |}
  end.

Definition factory_init : list Event :=
  match request with
  | Some _ => []
  | None => [EvInitializeRequest factory_request]
  end.

(** What the subscription generator answers when the factory runs it in [s]. *)
Definition factory_generated (s : World) : Generated :=
  generate_payload_from_subscription ext (emits factory_init s) event_type
    subscribable_object (subscription_query webhook) factory_request (app webhook).

Definition not_subscribable : Prop := WEBHOOK_TYPES_MAP ext event_type = false.

Definition nothing_generated (s : World) : Prop :=
  WEBHOOK_TYPES_MAP ext event_type = true
  /\ truthy_dict pregenerated_payload = false
  /\ exists data, factory_generated s = GenData data /\ truthy_dict data = false.

End Factory.


(** ** Counting calls *)

(** How many events of a trace satisfy [p]. *)
Definition occurrences (p : Event -> bool) (t : list Event) : nat :=
  length (List.filter p t).

Definition is_initialize_request (e : Event) : bool :=
  match e with EvInitializeRequest _ => true | _ => false end.

Definition is_generate_payload (e : Event) : bool :=
  match e with EvGeneratePayload => true | _ => false end.

Definition is_generate_from_subscription (e : Event) : bool :=
  match e with EvGeneratePayloadFromSubscription _ _ => true | _ => false end.

Definition is_span_error (e : Event) : bool :=
  match e with EvSpanSetStatusError => true | _ => false end.

Definition is_call_event (e : Event) : bool :=
  match e with EvCallEvent _ _ => true | _ => false end.

Definition is_transaction_event (e : Event) : bool :=
  match e with
  | EvCreateTransactionEventFromRequestAndWebhookResponse _ _ _ => true
  | EvCreateFailedTransactionEvent _ _ => true
  | _ => false
  end.

(** [s'] has the payload and delivery rows of [s]. *)
Definition same_tables (s s' : World) : Prop :=
  db_payloads s' = db_payloads s /\ db_deliveries s' = db_deliveries s.


(** The timeout [trigger_webhook_sync] hands on (lines 338-342). *)
Definition resolved_sync_timeout (ext : Externals) (timeout : option Z) : Z :=
  match timeout with
  | Some t => if t =? 0 then WEBHOOK_SYNC_TIMEOUT ext else t
  | None => WEBHOOK_SYNC_TIMEOUT ext
  end.

(** Whether the circuit breaker, when one is configured, short-circuits the
    call instead of running [trigger_webhook_sync] (lines 345-346). *)
Definition breaker_short_circuits (ext : Externals) (s : World) (event_type : string)
    (webhook : Webhook) : bool :=
  match breaker_board ext with
  | Some board => board s event_type webhook
  | None => false
  end.

(** ** Further concrete environments *)

Module Scenarios.

(** The environment of [Demo] with its event lookup, subscription generator
    and registry replaced. *)
Definition env
    (events : World -> Z -> option TransactionEvent)
    (generate : World -> string -> SubscribableObject -> option string -> Request -> App
                -> Generated)
    (registry : World -> string -> option (list Z) -> list Webhook)
    (fails : World -> DbWrite -> bool) : Externals :=
  {| WEBHOOK_SYNC_TIMEOUT := 20;
     WEBHOOK_CACHE_DEFAULT_TIMEOUT := 300;
     WEBHOOK_TYPES_MAP := fun e => negb (String.eqb e "not_subscribable");
     WebhookEventSyncType_ALL := fun _ => true;
     urlparse_scheme := Demo.scheme_of;
     json_loads := Demo.loads;
     json_dumps := fun _ => "{}";
     get_domain := fun _ => "shop.example";
     signature_for_payload := fun message _ => ("sig:" ++ message)%string;
     send_webhook_using_http := Demo.http;
     generate_payload_from_subscription := generate;
     get_pregenerated_subscription_payload := fun _ _ => None;
     generate_cache_key_for_webhook := fun _ url event_type _ => (url ++ "|" ++ event_type)%string;
     get_webhooks_for_event := registry;
     TaxData := list Z;
     parse_tax_data := Demo.parse;
     find_transaction_event := events;
     get_delivery_for_webhook := fun s i =>
       head (filter (fun d => bool_decide (delivery_pk d = Some i)) (db_deliveries s));
     generate_transaction_action_request_payload := fun _ _ => "{}";
     db_write_fails := fails;
     breaker_board := None |}.

(** The environment [e] behind a circuit breaker that is open for the
    endpoint [tripped] and closed for every other one. *)
Definition guarded (e : Externals) (tripped : string) : Externals :=
  {| WEBHOOK_SYNC_TIMEOUT := WEBHOOK_SYNC_TIMEOUT e;
     WEBHOOK_CACHE_DEFAULT_TIMEOUT := WEBHOOK_CACHE_DEFAULT_TIMEOUT e;
     WEBHOOK_TYPES_MAP := WEBHOOK_TYPES_MAP e;
     WebhookEventSyncType_ALL := WebhookEventSyncType_ALL e;
     urlparse_scheme := urlparse_scheme e;
     json_loads := json_loads e;
     json_dumps := json_dumps e;
     get_domain := get_domain e;
     signature_for_payload := signature_for_payload e;
     send_webhook_using_http := send_webhook_using_http e;
     generate_payload_from_subscription := generate_payload_from_subscription e;
     get_pregenerated_subscription_payload := get_pregenerated_subscription_payload e;
     generate_cache_key_for_webhook := generate_cache_key_for_webhook e;
     get_webhooks_for_event := get_webhooks_for_event e;
     TaxData := TaxData e;
     parse_tax_data := parse_tax_data e;
     find_transaction_event := find_transaction_event e;
     get_delivery_for_webhook := get_delivery_for_webhook e;
     generate_transaction_action_request_payload :=
       generate_transaction_action_request_payload e;
     db_write_fails := db_write_fails e;
     breaker_board := Some (fun _ _ w => String.eqb (target_url w) tripped) |}.

Definition no_events (_ : World) (_ : Z) : option TransactionEvent := None.

Definition any_event (_ : World) (i : Z) : option TransactionEvent :=
  Some {| transaction_event_id := i; transaction_event_transaction := 1 |}.

(** A generator that fails with a payment error. *)
Definition payment_error (_ : World) (_ : string) (_ : SubscribableObject)
    (_ : option string) (_ : Request) (_ : App) : Generated :=
  GenRaise (PaymentError "no gateway").

(** A registry that puts a webhook with an unsupported scheme between two
    tax subscribers, and serves transactions with a subscription webhook. *)
Definition registry (_ : World) (event_type : string) (_ : option (list Z)) : list Webhook :=
  if String.eqb event_type "checkout_calculate_taxes"
  then [Demo.hook_garbled; Demo.hook_ftp; Demo.hook_ok]
  else if String.eqb event_type "order_calculate_taxes"
  then [Demo.hook_subscribed; Demo.hook_short; Demo.hook_subscribed; Demo.hook_short]
  else [Demo.hook_subscribed].

(** A saved delivery addressed to a webhook with an unsupported scheme. *)
Definition ftp_delivery : EventDelivery :=
  {| delivery_pk := Some 1; delivery_status := PENDING;
     delivery_event_type := "transaction_charge_requested";
     delivery_payload := {| payload_pk := Some 1; payload_body := "{}" |};
     delivery_webhook := Demo.hook_ftp |}.

Definition ftp_world : World :=
  {| trace := []; cache := ∅; now := 0;
     db_payloads := [{| payload_pk := Some 1; payload_body := "{}" |}];
     db_deliveries := [ftp_delivery];
     next_pk := 2 |}.

Definition transaction (owner : option App) : TransactionActionData :=
  {| transaction_app_owner := owner;
     transaction_data_event :=
       {| transaction_event_id := 11; transaction_event_transaction := 3 |};
     transaction_data_transaction := 3 |}.

End Scenarios.
(** * Properties *)

Lemma status_eqb_eq a b : status_eqb a b = true <-> a = b.
Proof. destruct a, b; simpl; split; intros H; try reflexivity; discriminate H. Qed.

(** ** Worlds that differ by appended events *)

Lemma emit_emits e s : emit e s = emits [e] s.
Proof. reflexivity. Qed.

Lemma emits_emits a b s : emits b (emits a s) = emits (a ++ b) s.
Proof. unfold emits; simpl. now rewrite <- app_assoc. Qed.

Lemma emits_nil s : emits [] s = s.
Proof. destruct s; unfold emits; simpl. now rewrite app_nil_r. Qed.

Lemma dispatches_app a b : dispatches (a ++ b) = dispatches a ++ dispatches b.
Proof.
  induction a as [|e a IH]; simpl; [reflexivity|].
  destruct e; simpl; rewrite ?IH; reflexivity.
Qed.

Lemma deliveries_created_app a b :
  deliveries_created (a ++ b) = deliveries_created a ++ deliveries_created b.
Proof.
  induction a as [|e a IH]; simpl; [reflexivity|].
  destruct e; simpl; rewrite ?IH; reflexivity.
Qed.

Lemma attempts_created_app a b :
  attempts_created (a ++ b) = attempts_created a ++ attempts_created b.
Proof.
  induction a as [|e a IH]; simpl; [reflexivity|].
  destruct e; simpl; rewrite ?IH; reflexivity.
Qed.

Lemma retries_requested_app a b :
  retries_requested (a ++ b) = retries_requested a ++ retries_requested b.
Proof.
  induction a as [|e a IH]; simpl; [reflexivity|].
  destruct e; simpl; rewrite ?IH; reflexivity.
Qed.

Lemma retries_scheduled_app a b :
  retries_scheduled (a ++ b) = retries_scheduled a ++ retries_scheduled b.
Proof.
  induction a as [|e a IH]; simpl; [reflexivity|].
  destruct e; simpl; rewrite ?IH; reflexivity.
Qed.

Lemma count_logs_app level a b :
  count_logs level (a ++ b) = (count_logs level a + count_logs level b)%nat.
Proof.
  induction a as [|e a IH]; simpl; [reflexivity|].
  destruct e; simpl; rewrite ?IH; lia.
Qed.

Lemma occurrences_app p a b :
  occurrences p (a ++ b) = (occurrences p a + occurrences p b)%nat.
Proof. unfold occurrences. now rewrite List.filter_app, length_app. Qed.

(** Fold a chain of [emit]s into one [emits]. *)
Ltac fold_emits :=
  repeat rewrite emit_emits; repeat rewrite emits_emits; simpl app.

(** Unfold the monad and the effect helpers. *)
Ltac run :=
  unfold logger, delivery_update, record_external_request, create_attempt,
    attempt_update, report_event_delivery_attempt, save_unsuccessful_delivery_attempt,
    clear_successful_delivery, handle_webhook_retry,
    create_transaction_event_from_request_and_webhook_response,
    create_failed_transaction_event, recalculate_refundable_for_checkout, call_event,
    initialize_request, allow_writer in *;
  unfold bind, ret, raise, call, ask in *; simpl in *.

Section Dispatcher.

Variable ext : Externals.

Lemma _send_unsupported d timeout attempt s :
  scheme_supported ext (target_url (delivery_webhook d)) = false ->
  _send_webhook_request_sync ext d timeout attempt s =
    Raise (ValueError "Unknown webhook scheme"
             (urlparse_scheme ext (target_url (delivery_webhook d))))
          (emits [EvDeliveryUpdate d FAILED;
                  EvRecordExternalRequest (target_url (delivery_webhook d))
                    {| content := ""; response_status_code := None; status := FAILED |}
                    (String.length (payload_body (delivery_payload d)))] s).
Proof.
  intros H. unfold _send_webhook_request_sync. run. rewrite H. simpl.
  fold_emits. reflexivity.
Qed.

Lemma _send_supported d timeout attempt s :
  scheme_supported ext (target_url (delivery_webhook d)) = true ->
  _send_webhook_request_sync ext d timeout attempt s =
    Ret (classify ext (transport_answer ext d timeout attempt s))
        (emits (dispatch_events ext d timeout attempt s) s).
Proof.
  intros H. unfold _send_webhook_request_sync. run. rewrite H. simpl.
  unfold dispatch_events, classify, dispatch_log, transport_answer,
    dispatch_prelude, dispatch_attempt, dispatch_request, emits, emit.
  destruct attempt as [a|]; simpl; rewrite <- ?app_assoc; simpl.
  all: match goal with |- context [send_webhook_using_http ext ?w ?r] =>
         generalize (send_webhook_using_http ext w r); intros resp end.
  all: destruct (json_loads ext (content resp)) as [v|]; simpl;
       [destruct (status resp) eqn:E; simpl; repeat (rewrite E; simpl)|];
       rewrite <- ?app_assoc; reflexivity.
Qed.

End Dispatcher.

(** ** The dispatcher: scheme check, classification, and the thin wrapper *)

Lemma scheme_supported_false ext url :
  lower (urlparse_scheme ext url) <> WebhookSchemes.HTTP ->
  lower (urlparse_scheme ext url) <> WebhookSchemes.HTTPS ->
  scheme_supported ext url = false.
Proof.
  intros H1 H2. unfold scheme_supported.
  destruct (String.eqb_spec (lower (urlparse_scheme ext url)) WebhookSchemes.HTTP);
    [contradiction|].
  destruct (String.eqb_spec (lower (urlparse_scheme ext url)) WebhookSchemes.HTTPS);
    [contradiction|reflexivity].
Qed.

Lemma dispatches_dispatch_events ext d timeout attempt s :
  dispatches (dispatch_events ext d timeout attempt s) =
    [(dispatch_request ext d timeout s, transport_answer ext d timeout attempt s)].
Proof.
  unfold dispatch_events, dispatch_prelude, dispatch_log.
  generalize (transport_answer ext d timeout attempt s); intros resp.
  destruct attempt; simpl;
    destruct (classify ext resp) as [r data]; simpl;
    destruct (json_loads ext (content resp)); simpl;
    destruct (status resp); simpl; destruct (status r); reflexivity.
Qed.

(** C3: a delivery whose target URL has a scheme other than http or https is
    marked FAILED, an external-request metric is recorded for a failed
    response, and the dispatcher raises; these two calls are all it does, so
    no HTTP request is sent and no attempt record is created. *)
Theorem C3_unsupported_scheme_raises ext d timeout attempt s :
  lower (urlparse_scheme ext (target_url (delivery_webhook d))) <> "http" ->
  lower (urlparse_scheme ext (target_url (delivery_webhook d))) <> "https" ->
  exists msg arg s' failed,
    _send_webhook_request_sync ext d timeout attempt s = Raise (ValueError msg arg) s'
    /\ status failed = FAILED
    /\ trace s' = trace s ++
         [EvDeliveryUpdate d FAILED;
          EvRecordExternalRequest (target_url (delivery_webhook d)) failed
            (String.length (payload_body (delivery_payload d)))]
    /\ dispatches (trace s') = dispatches (trace s)
    /\ attempts_created (trace s') = attempts_created (trace s).
Proof.
  intros H1 H2.
  pose proof (scheme_supported_false ext _ H1 H2) as Hs.
  rewrite (_send_unsupported ext d timeout attempt s Hs).
  do 3 eexists.
  exists {| content := ""; response_status_code := None; status := FAILED |}.
  split; [reflexivity|]. split; [reflexivity|]. split; [reflexivity|].
  simpl. rewrite dispatches_app, attempts_created_app. simpl.
  rewrite !app_nil_r. split; reflexivity.
Qed.

Lemma C3_witness :
  lower (Demo.scheme_of "ftp://x") <> "http"
  /\ lower (Demo.scheme_of "ftp://x") <> "https"
  /\ exists msg arg s' failed,
    _send_webhook_request_sync (Demo.ext Demo.never_fails) (Demo.delivery_to Demo.hook_ftp)
      20 None Demo.world0 = Raise (ValueError msg arg) s'
    /\ status failed = FAILED
    /\ trace s' = trace Demo.world0 ++
         [EvDeliveryUpdate (Demo.delivery_to Demo.hook_ftp) FAILED;
          EvRecordExternalRequest "ftp://x" failed 2%nat]
    /\ dispatches (trace s') = dispatches (trace Demo.world0)
    /\ attempts_created (trace s') = attempts_created (trace Demo.world0).
Proof.
  split; [vm_compute; discriminate|]. split; [vm_compute; discriminate|].
  apply (C3_unsupported_scheme_raises (Demo.ext Demo.never_fails)
           (Demo.delivery_to Demo.hook_ftp) 20 None Demo.world0);
    vm_compute; discriminate.
Defined.

(** C1 (as amended): a dispatch that goes through makes exactly one HTTP
    exchange and returns a pair decided by the content of the answer alone.
    Content that is not valid JSON gives status FAILED and no parsed body;
    content that is valid JSON gives the transport's own status, so a failed
    answer stays FAILED, and the decoded content as the parsed body, whatever
    that status is. *)
Theorem C1_parsed_body_follows_content ext d timeout attempt s :
  scheme_supported ext (target_url (delivery_webhook d)) = true ->
  exists req resp r data s',
    _send_webhook_request_sync ext d timeout attempt s = Ret (r, data) s'
    /\ dispatches (trace s') = dispatches (trace s) ++ [(req, resp)]
    /\ http_target_url req = target_url (delivery_webhook d)
    /\ (json_loads ext (content resp) = None -> status r = FAILED /\ data = PyNone)
    /\ (forall parsed, json_loads ext (content resp) = Some parsed ->
          status r = status resp /\ data = parsed)
    /\ (status resp = FAILED -> status r = FAILED).
Proof.
  intros Hs. rewrite (_send_supported ext d timeout attempt s Hs).
  exists (dispatch_request ext d timeout s), (transport_answer ext d timeout attempt s).
  destruct (classify ext (transport_answer ext d timeout attempt s)) as [r data] eqn:Hc.
  exists r, data. eexists. split; [reflexivity|].
  split; [simpl; now rewrite dispatches_app, dispatches_dispatch_events|].
  split; [reflexivity|].
  unfold classify in Hc.
  destruct (json_loads ext (content (transport_answer ext d timeout attempt s)));
    inversion Hc; subst; clear Hc.
  - split; [discriminate|]. split; [|tauto].
    intros parsed [= <-]. split; reflexivity.
  - split; [intros _; split; reflexivity|].
    split; [discriminate|reflexivity].
Qed.

Lemma C1_witness :
  scheme_supported (Demo.ext Demo.never_fails)
    (target_url (delivery_webhook (Demo.delivery_to Demo.hook_garbled))) = true
  /\ exists req resp r data s',
    _send_webhook_request_sync (Demo.ext Demo.never_fails)
      (Demo.delivery_to Demo.hook_garbled) 20 None Demo.world0 = Ret (r, data) s'
    /\ dispatches (trace s') = dispatches (trace Demo.world0) ++ [(req, resp)]
    /\ http_target_url req = "https://garbled.example/hook"
    /\ (Demo.loads (content resp) = None -> status r = FAILED /\ data = PyNone)
    /\ (forall parsed, Demo.loads (content resp) = Some parsed ->
          status r = status resp /\ data = parsed)
    /\ (status resp = FAILED -> status r = FAILED).
Proof.
  split; [reflexivity|].
  apply (C1_parsed_body_follows_content (Demo.ext Demo.never_fails)
           (Demo.delivery_to Demo.hook_garbled) 20 None Demo.world0).
  reflexivity.
Defined.

(** C1 as stated fails: a subscriber that answers 503 with the JSON body
    [{}] leaves the dispatcher returning status FAILED together with the
    decoded body, which is not null. *)
Lemma C1_counterexample :
  exists r data s',
    _send_webhook_request_sync (Demo.ext Demo.never_fails)
      (Demo.delivery_to Demo.hook_down) 20 None Demo.world0 = Ret (r, data) s'
    /\ status r = FAILED
    /\ response_status_code r = Some 503
    /\ data = PyDict []
    /\ data <> PyNone.
Proof.
  do 3 eexists. split; [vm_compute; reflexivity|].
  repeat split; discriminate.
Qed.

(** C5: for a delivery whose target URL has the scheme http or https, the
    wrapper returns the parsed body of the dispatch exactly when the dispatch
    status is SUCCESS and null in every other case; what it returns is a
    Python value, never the response object.  For a delivery with any other
    scheme the wrapper returns nothing: the ValueError of the dispatcher
    leaves it, and no HTTP request has been sent. *)
Theorem C5_wrapper_returns_body_iff_success ext d timeout s :
  (scheme_supported ext (target_url (delivery_webhook d)) = true ->
   exists (r : WebhookResponse) (data : PyValue) (s' : World) (v : PyValue),
     _send_webhook_request_sync ext d timeout None s = Ret (r, data) s'
     /\ send_webhook_request_sync ext d timeout s = Ret v s'
     /\ (status r = SUCCESS -> v = data)
     /\ (status r <> SUCCESS -> v = PyNone))
  /\ (scheme_supported ext (target_url (delivery_webhook d)) = false ->
      exists (s' : World),
        send_webhook_request_sync ext d timeout s
        = Raise (ValueError "Unknown webhook scheme"
                   (urlparse_scheme ext (target_url (delivery_webhook d)))) s'
        /\ _send_webhook_request_sync ext d timeout None s
           = Raise (ValueError "Unknown webhook scheme"
                      (urlparse_scheme ext (target_url (delivery_webhook d)))) s'
        /\ dispatches (trace s') = dispatches (trace s)).
Proof.
  split; intros Hs; unfold send_webhook_request_sync, bind, ret.
  - rewrite (_send_supported ext d timeout None s Hs).
    destruct (classify ext (transport_answer ext d timeout None s)) as [r data].
    exists r, data. do 2 eexists. split; [reflexivity|].
    split; [reflexivity|]. simpl.
    destruct (status r); simpl; split; intros H; try reflexivity;
      try discriminate H; contradiction H; reflexivity.
  - rewrite (_send_unsupported ext d timeout None s Hs).
    eexists. split; [reflexivity|]. split; [reflexivity|].
    simpl. rewrite dispatches_app. simpl. apply app_nil_r.
Qed.

Lemma C5_witness :
  (exists (r : WebhookResponse) (data : PyValue) (s' : World) (v : PyValue),
     _send_webhook_request_sync (Demo.ext Demo.never_fails)
       (Demo.delivery_to Demo.hook_ok) 20 None Demo.world0 = Ret (r, data) s'
     /\ send_webhook_request_sync (Demo.ext Demo.never_fails)
          (Demo.delivery_to Demo.hook_ok) 20 Demo.world0 = Ret v s'
     /\ (status r = SUCCESS -> v = data)
     /\ (status r <> SUCCESS -> v = PyNone))
  /\ (exists (s' : World),
        send_webhook_request_sync (Demo.ext Demo.never_fails)
          (Demo.delivery_to Demo.hook_ftp) 20 Demo.world0
        = Raise (ValueError "Unknown webhook scheme" "ftp") s'
        /\ _send_webhook_request_sync (Demo.ext Demo.never_fails)
             (Demo.delivery_to Demo.hook_ftp) 20 None Demo.world0
           = Raise (ValueError "Unknown webhook scheme" "ftp") s'
        /\ dispatches (trace s') = dispatches (trace Demo.world0)).
Proof.
  split.
  - apply (C5_wrapper_returns_body_iff_success (Demo.ext Demo.never_fails)
             (Demo.delivery_to Demo.hook_ok) 20 Demo.world0).
    reflexivity.
  - apply (C5_wrapper_returns_body_iff_success (Demo.ext Demo.never_fails)
             (Demo.delivery_to Demo.hook_ftp) 20 Demo.world0).
    reflexivity.
Defined.

(** C5 as stated fails: for a delivery addressed to [ftp://x] the wrapper
    returns neither a parsed body nor null; it raises. *)
Lemma C5_counterexample :
  exists e s',
    send_webhook_request_sync (Demo.ext Demo.never_fails)
      (Demo.delivery_to Demo.hook_ftp) 20 Demo.world0 = Raise e s'
    /\ forall v s'',
         send_webhook_request_sync (Demo.ext Demo.never_fails)
           (Demo.delivery_to Demo.hook_ftp) 20 Demo.world0 <> Ret v s''.
Proof.
  do 2 eexists. split; [vm_compute; reflexivity|].
  intros v s''. vm_compute. discriminate.
Qed.

(** ** The delivery factory *)

(** Unfold the factory down to the monad. *)
Ltac run_factory :=
  unfold create_delivery_for_subscription_sync_event, create_pair, atomic, save_payload,
    save_delivery, factory_generated, factory_init, factory_request in *;
  run.

(** Decide every database write mentioned in [H]. *)
Ltac split_writes H :=
  repeat match type of H with
         | context [db_write_fails ?e ?w ?o] =>
             destruct (db_write_fails e w o) eqn:?; simpl in H
         end.

(** C10: the factory returns null in exactly two cases, when the event type
    is not subscribable and when no truthy pregenerated payload was supplied
    and the subscription generator produced no data.  In both the only thing
    appended after the calls that produce the payload is one INFO log record:
    nothing is raised, no delivery object is built and no row is written. *)
Theorem C10_factory_null_cases ext event_type subscribable_object webhook requestor
    request allow_replica pregenerated_payload with_save s :
  let create :=
    create_delivery_for_subscription_sync_event ext event_type subscribable_object
      webhook requestor request allow_replica pregenerated_payload with_save in
  let init := factory_init ext event_type requestor request allow_replica in
  let skipped := not_subscribable ext event_type in
  let empty :=
    nothing_generated ext event_type subscribable_object webhook requestor request
      allow_replica pregenerated_payload s in
  (skipped ->
     create s = Ret None
       (emits [EvLog INFO "Skipping subscription webhook. Event %s is not subscribable."] s))
  /\ (empty ->
     create s = Ret None
       (emits (init ++ [EvGeneratePayloadFromSubscription event_type webhook;
                        EvLog INFO "No payload was generated with subscription for event: %s"])
          s))
  /\ (forall s', create s = Ret None s' -> skipped \/ empty).
Proof.
  unfold not_subscribable, nothing_generated. simpl.
  split; [|split].
  - intros H. run_factory. rewrite H. reflexivity.
  - intros (H1 & H2 & data & H3 & H4). run_factory. rewrite H1, H2. simpl.
    destruct request as [r|]; simpl in *; rewrite ?emits_nil in H3; fold_emits;
      rewrite H3; simpl.
    all: destruct data as [[|entry entries]|]; try discriminate H4; simpl;
      fold_emits; reflexivity.
  - intros s' H. run_factory.
    destruct (WEBHOOK_TYPES_MAP ext event_type) eqn:H1; simpl in H; [|left; reflexivity].
    right. split; [reflexivity|].
    destruct (truthy_dict pregenerated_payload) eqn:H2; simpl in H.
    + exfalso. destruct pregenerated_payload as [[|entry entries]|]; try discriminate H2.
      destruct request; simpl in H; destruct with_save; simpl in H;
        split_writes H; discriminate H.
    + split; [reflexivity|].
      destruct request as [r|]; simpl in *; rewrite ?emits_nil; fold_emits.
      all: match goal with
           | H : context [generate_payload_from_subscription ?x ?w ?a ?b ?c ?d ?e] |- _ =>
               destruct (generate_payload_from_subscription x w a b c d e)
                 as [data|exn] eqn:Hg; simpl in H; [|discriminate H]
           end.
      all: exists data; split; [first [reflexivity | exact Hg]|].
      all: destruct data as [[|entry entries]|]; try reflexivity; exfalso.
      all: destruct with_save; simpl in H; split_writes H; discriminate H.
Qed.

Lemma C10_witness :
  not_subscribable (Demo.ext Demo.never_fails) "not_subscribable"
  /\ create_delivery_for_subscription_sync_event (Demo.ext Demo.never_fails)
       "not_subscribable" NoObject Demo.hook_subscribed None None false None true
       Demo.world0
     = Ret None
         (emits [EvLog INFO "Skipping subscription webhook. Event %s is not subscribable."]
            Demo.world0)
  /\ nothing_generated (Demo.ext Demo.never_fails) "checkout_calculate_taxes" NoObject
       Demo.hook_subscribed_empty None None false None Demo.world0
  /\ create_delivery_for_subscription_sync_event (Demo.ext Demo.never_fails)
       "checkout_calculate_taxes" NoObject Demo.hook_subscribed_empty None None false None
       true Demo.world0
     = Ret None
         (emits
            (factory_init (Demo.ext Demo.never_fails) "checkout_calculate_taxes" None None
               false
             ++ [EvGeneratePayloadFromSubscription "checkout_calculate_taxes"
                   Demo.hook_subscribed_empty;
                 EvLog INFO "No payload was generated with subscription for event: %s"])
            Demo.world0).
Proof.
  assert (Hempty : nothing_generated (Demo.ext Demo.never_fails) "checkout_calculate_taxes"
                     NoObject Demo.hook_subscribed_empty None None false None Demo.world0).
  { split; [reflexivity|]. split; [reflexivity|]. exists None. split; reflexivity. }
  split; [reflexivity|]. split.
  - apply (proj1 (C10_factory_null_cases (Demo.ext Demo.never_fails) "not_subscribable"
                    NoObject Demo.hook_subscribed None None false None true Demo.world0)).
    reflexivity.
  - split; [exact Hempty|].
    apply (proj1 (proj2 (C10_factory_null_cases (Demo.ext Demo.never_fails)
                           "checkout_calculate_taxes" NoObject Demo.hook_subscribed_empty
                           None None false None true Demo.world0))).
    exact Hempty.
Defined.

Lemma written_together_refl s : written_together s s.
Proof. left; split; reflexivity. Qed.

Lemma written_together_from s s1 s' :
  db_payloads s1 = db_payloads s -> db_deliveries s1 = db_deliveries s ->
  written_together s1 s' -> written_together s s'.
Proof. unfold written_together. intros -> ->. tauto. Qed.

(** The block of lines 289-302 leaves both rows or none, however it ends. *)
Lemma create_pair_written_together ext event_type webhook data with_save s :
  written_together s (final_world (create_pair ext event_type webhook data with_save s)).
Proof.
  unfold create_pair, atomic, save_payload, save_delivery. run.
  destruct with_save; simpl; [|left; split; reflexivity].
  destruct (db_write_fails ext _ (WritePayload _)); simpl;
    [left; split; reflexivity|].
  destruct (db_write_fails ext _ (WriteDelivery _)); simpl;
    [left; split; reflexivity|].
  right. do 2 eexists. split; [reflexivity|]. split; reflexivity.
Qed.

Lemma create_delivery_written_together ext event_type subscribable_object webhook
    requestor request allow_replica pregenerated_payload with_save s :
  written_together s
    (final_world
       (create_delivery_for_subscription_sync_event ext event_type subscribable_object
          webhook requestor request allow_replica pregenerated_payload with_save s)).
Proof.
  unfold create_delivery_for_subscription_sync_event. run.
  destruct (WEBHOOK_TYPES_MAP ext event_type); simpl; [|left; split; reflexivity].
  assert (Hdata : forall (data : option Dict) s1,
    db_payloads s1 = db_payloads s -> db_deliveries s1 = db_deliveries s ->
    written_together s
      (final_world
         (match data with
          | Some (entry :: entries) =>
              fun s0 =>
                match create_pair ext event_type webhook (entry :: entries) with_save s0 with
                | Ret a s' => Ret (Some a) s'
                | Raise e s' => Raise e s'
                end
          | _ => fun s0 =>
              Ret None (emit (EvLog INFO "No payload was generated with subscription for event: %s") s0)
          end s1))).
  { intros data s1 Hp Hd.
    destruct data as [[|entry entries]|]; simpl;
      try (left; split; assumption).
    pose proof (create_pair_written_together ext event_type webhook
                  (entry :: entries) with_save s1) as Hw.
    destruct (create_pair ext event_type webhook (entry :: entries) with_save s1);
      simpl in *; apply (written_together_from s s1); assumption. }
  destruct request as [r|]; simpl;
    (destruct (truthy_dict pregenerated_payload); simpl;
     [apply Hdata; reflexivity|]).
  all: match goal with
       | |- context [generate_payload_from_subscription ?x ?w ?a ?b ?c ?d ?e] =>
           destruct (generate_payload_from_subscription x w a b c d e); simpl
       end.
  all: first [apply Hdata; reflexivity | left; split; reflexivity].
Qed.

Lemma create_static_pair_written_together ext event_type webhook payload s :
  written_together s (final_world (create_static_pair ext event_type webhook payload s)).
Proof.
  unfold create_static_pair, atomic, save_payload, save_delivery. run.
  destruct (db_write_fails ext _ (WritePayload _)); simpl;
    [left; split; reflexivity|].
  destruct (db_write_fails ext _ (WriteDelivery _)); simpl;
    [left; split; reflexivity|].
  right. do 2 eexists. split; [reflexivity|]. split; reflexivity.
Qed.

Lemma trigger_transaction_request_written_together ext transaction_data event_type
    requestor s :
  written_together s
    (final_world (trigger_transaction_request ext transaction_data event_type requestor s)).
Proof.
  unfold trigger_transaction_request, catch_payment_error. run.
  destruct (transaction_app_owner transaction_data) as [owner|]; simpl;
    [|left; split; reflexivity].
  destruct (get_webhooks_for_event ext s event_type (Some [app_pk owner]))
    as [|webhook rest]; simpl; [left; split; reflexivity|].
  destruct (truthy_str (subscription_query webhook)); simpl.
  - pose proof (create_delivery_written_together ext event_type
                  (TransactionObject transaction_data) webhook None None false None true s)
      as Hw.
    destruct (create_delivery_for_subscription_sync_event ext event_type
                (TransactionObject transaction_data) webhook None None false None true s)
      as [[delivery|] s1|exn s1]; simpl in *; try exact Hw.
    destruct exn; simpl; exact Hw.
  - pose proof (create_static_pair_written_together ext event_type webhook
                  (generate_transaction_action_request_payload ext transaction_data requestor)
                  s) as Hw.
    destruct (create_static_pair ext event_type webhook
                (generate_transaction_action_request_payload ext transaction_data requestor)
                s); simpl in *; exact Hw.
Qed.

(** C9: wherever a delivery is persisted, by the factory with [with_save]
    set or by [trigger_transaction_request], the payload row and the
    delivery row are written under one [transaction.atomic()] block: however
    the call ends (return or exception), the two tables have gained either
    nothing or exactly one payload together with one delivery that refers
    to it. *)
Theorem C9_payload_and_delivery_written_together ext event_type subscribable_object
    webhook requestor request allow_replica pregenerated_payload
    transaction_data requestor' s :
  written_together s
    (final_world
       (create_delivery_for_subscription_sync_event ext event_type subscribable_object
          webhook requestor request allow_replica pregenerated_payload true s))
  /\ written_together s
       (final_world
          (create_static_pair ext event_type webhook
             (generate_transaction_action_request_payload ext transaction_data requestor') s))
  /\ written_together s
       (final_world
          (trigger_transaction_request ext transaction_data event_type requestor' s)).
Proof.
  split; [apply create_delivery_written_together|].
  split; [apply create_static_pair_written_together|].
  apply trigger_transaction_request_written_together.
Qed.

(** When the database refuses the delivery row, the payload row written just
    before it is undone with it. *)
Example payload_write_rolled_back :
  exists e s',
    create_delivery_for_subscription_sync_event (Demo.ext Demo.delivery_write_fails)
      "checkout_calculate_taxes" NoObject Demo.hook_subscribed None None false None true
      Demo.world0 = Raise e s'
    /\ db_payloads s' = [] /\ db_deliveries s' = [].
Proof. do 2 eexists. split; [vm_compute; reflexivity|]. split; reflexivity. Qed.

Example pair_written :
  exists d s',
    create_delivery_for_subscription_sync_event (Demo.ext Demo.never_fails)
      "checkout_calculate_taxes" NoObject Demo.hook_subscribed None None false None true
      Demo.world0 = Ret (Some d) s'
    /\ db_payloads s' = [delivery_payload d] /\ db_deliveries s' = [d]
    /\ payload_pk (delivery_payload d) = Some 1 /\ delivery_pk d = Some 2.
Proof.
  do 2 eexists. split; [vm_compute; reflexivity|]. repeat split; reflexivity.
Qed.

(** Both early exits of the factory, on concrete input. *)
Example factory_skips_unsubscribable :
  exists s',
    create_delivery_for_subscription_sync_event (Demo.ext Demo.never_fails)
      "not_subscribable" NoObject Demo.hook_subscribed None None false None true
      Demo.world0 = Ret None s'
    /\ deliveries_created (trace s') = [] /\ db_deliveries s' = [].
Proof. eexists. split; [vm_compute; reflexivity|]. split; reflexivity. Qed.

Example factory_skips_empty_payload :
  exists s',
    create_delivery_for_subscription_sync_event (Demo.ext Demo.never_fails)
      "checkout_calculate_taxes" NoObject Demo.hook_subscribed_empty None None false None true
      Demo.world0 = Ret None s'
    /\ deliveries_created (trace s') = [] /\ db_deliveries s' = [].
Proof. eexists. split; [vm_compute; reflexivity|]. split; reflexivity. Qed.

(** ** The transaction-action path *)

(** C8: when the transaction has no owning app, or the registry holds no
    webhook for that app and event type, [trigger_transaction_request]
    makes exactly two calls, one that creates a failed transaction event and
    one that recomputes the checkout's refundable amount, and returns: no
    HTTP request is sent, no delivery is built and no row is written. *)
Theorem C8_no_owner_or_no_webhook ext transaction_data event_type requestor s :
  transaction_app_owner transaction_data = None
  \/ (exists owner,
        transaction_app_owner transaction_data = Some owner
        /\ get_webhooks_for_event ext s event_type (Some [app_pk owner]) = []) ->
  exists cause s',
    trigger_transaction_request ext transaction_data event_type requestor s = Ret tt s'
    /\ trace s' = trace s ++
         [EvCreateFailedTransactionEvent (transaction_data_event transaction_data) cause;
          EvRecalculateRefundableForCheckout
            (transaction_data_transaction transaction_data)
            (transaction_data_event transaction_data)]
    /\ dispatches (trace s') = dispatches (trace s)
    /\ deliveries_created (trace s') = deliveries_created (trace s)
    /\ db_deliveries s' = db_deliveries s
    /\ db_payloads s' = db_payloads s.
Proof.
  intros [H|(owner & H & Hw)]; unfold trigger_transaction_request; run; rewrite H; simpl;
    [|rewrite Hw; simpl]; fold_emits; do 2 eexists; (split; [reflexivity|]); simpl.
  all: rewrite dispatches_app, deliveries_created_app; simpl; rewrite !app_nil_r.
  all: repeat split; reflexivity.
Qed.

Lemma C8_witness :
  (transaction_app_owner
     {| transaction_app_owner := None;
        transaction_data_event :=
          {| transaction_event_id := 11; transaction_event_transaction := 3 |};
        transaction_data_transaction := 3 |} = None
   \/ (exists owner,
        transaction_app_owner
          {| transaction_app_owner := None;
             transaction_data_event :=
               {| transaction_event_id := 11; transaction_event_transaction := 3 |};
             transaction_data_transaction := 3 |} = Some owner
        /\ get_webhooks_for_event (Demo.ext Demo.never_fails) Demo.world0
             "transaction_charge_requested" (Some [app_pk owner]) = []))
  /\ exists cause s',
    trigger_transaction_request (Demo.ext Demo.never_fails)
      {| transaction_app_owner := None;
         transaction_data_event :=
           {| transaction_event_id := 11; transaction_event_transaction := 3 |};
         transaction_data_transaction := 3 |}
      "transaction_charge_requested" None Demo.world0 = Ret tt s'
    /\ trace s' = trace Demo.world0 ++
         [EvCreateFailedTransactionEvent
            {| transaction_event_id := 11; transaction_event_transaction := 3 |} cause;
          EvRecalculateRefundableForCheckout 3
            {| transaction_event_id := 11; transaction_event_transaction := 3 |}]
    /\ dispatches (trace s') = dispatches (trace Demo.world0)
    /\ deliveries_created (trace s') = deliveries_created (trace Demo.world0)
    /\ db_deliveries s' = db_deliveries Demo.world0
    /\ db_payloads s' = db_payloads Demo.world0.
Proof.
  split; [left; reflexivity|].
  apply (C8_no_owner_or_no_webhook (Demo.ext Demo.never_fails)
           {| transaction_app_owner := None;
              transaction_data_event :=
                {| transaction_event_id := 11; transaction_event_transaction := 3 |};
              transaction_data_transaction := 3 |}
           "transaction_charge_requested" None Demo.world0).
  left; reflexivity.
Defined.

(** An owner without a registered webhook takes the same exit. *)
Example no_webhook_for_owner :
  exists cause s',
    trigger_transaction_request (Demo.ext Demo.never_fails)
      {| transaction_app_owner := Some {| app_pk := 8 |};
         transaction_data_event :=
           {| transaction_event_id := 11; transaction_event_transaction := 3 |};
         transaction_data_transaction := 3 |}
      "transaction_charge_requested" None Demo.world0 = Ret tt s'
    /\ trace s' =
         [EvCreateFailedTransactionEvent
            {| transaction_event_id := 11; transaction_event_transaction := 3 |} cause;
          EvRecalculateRefundableForCheckout 3
            {| transaction_event_id := 11; transaction_event_transaction := 3 |}].
Proof. do 2 eexists. split; vm_compute; reflexivity. Qed.

Lemma server_error_test r :
  (truthy_num (response_status_code r)
   && match response_status_code r with
      | Some code => 500 <=? code
      | None => false
      end)%bool = true <-> server_error r.
Proof.
  unfold server_error, truthy_num.
  destruct (response_status_code r) as [code|]; simpl.
  - rewrite andb_true_iff, negb_true_iff, Z.eqb_neq, Z.leb_le. split.
    + intros [_ H]. exists code. split; [reflexivity|exact H].
    + intros (c & [= <-] & H). split; [lia|exact H].
  - split; [discriminate|]. intros (c & H & _). discriminate H.
Qed.

(** Dispatching neither resubmits a task nor makes a transaction event. *)
Lemma dispatch_events_no_retry ext d timeout attempt s :
  retries_requested (dispatch_events ext d timeout attempt s) = []
  /\ retries_scheduled (dispatch_events ext d timeout attempt s) = []
  /\ occurrences is_transaction_event (dispatch_events ext d timeout attempt s) = 0%nat.
Proof.
  unfold dispatch_events, dispatch_prelude, dispatch_log, occurrences.
  generalize (transport_answer ext d timeout attempt s); intros resp.
  destruct attempt; simpl;
    destruct (classify ext resp) as [r data]; simpl;
    destruct (json_loads ext (content resp)); simpl;
    destruct (status resp); simpl; destruct (status r); repeat split; reflexivity.
Qed.

(** C7: in the task, once the request event and the delivery are found and
    the delivery is dispatched, a response whose status code is 500 or above
    makes the task call the retry helper.  While the task has been retried
    fewer than 5 times, it is resubmitted once, after the backoff of 10
    doubled per retry so far, and the attempt ends there: the parsed
    response is dropped and no transaction event is made.  Once the 5
    retries are used up it is not resubmitted, and the conversion gets null,
    not the parsed response.  Any other response (no status code, or one
    below 500) is converted with its parsed body; the retry helper is not
    called and nothing is resubmitted. *)
Theorem C7_server_error_retries ext request_id retries delivery_id request_event_id
    request_event delivery s :
  find_transaction_event ext s request_event_id = Some request_event ->
  get_delivery_for_webhook ext s delivery_id = Some delivery ->
  scheme_supported ext (target_url (delivery_webhook delivery)) = true ->
  let self := bound_task request_id retries in
  let attempt := {| attempt_delivery := delivery;
                    attempt_task_id := Some request_id;
                    attempt_saved := true |} in
  let convert data :=
    EvCreateTransactionEventFromRequestAndWebhookResponse request_event
      (app (delivery_webhook delivery)) data in
  let countdown := 10 * 2 ^ Z.of_nat retries in
  exists r data s1,
    _send_webhook_request_sync ext delivery (WEBHOOK_SYNC_TIMEOUT ext) (Some attempt)
      (emit (EvCreateAttempt attempt) s) = Ret (r, data) s1
    /\ (server_error r -> (retries < 5)%nat ->
        exists s',
          handle_transaction_request_task ext self delivery_id request_event_id s
          = Raise (Retry countdown) s'
          /\ trace s' = trace s1 ++
               [EvHandleWebhookRetry self (delivery_webhook delivery) r
                  (with_status delivery (status r)) attempt;
                EvTaskRetry self countdown]
          /\ retries_scheduled (trace s') = retries_scheduled (trace s) ++ [(self, countdown)]
          /\ occurrences is_transaction_event (trace s')
             = occurrences is_transaction_event (trace s))
    /\ (server_error r -> (5 <= retries)%nat ->
        exists s',
          handle_transaction_request_task ext self delivery_id request_event_id s
          = Ret tt s'
          /\ trace s' = trace s1 ++
               [EvHandleWebhookRetry self (delivery_webhook delivery) r
                  (with_status delivery (status r)) attempt;
                convert PyNone]
          /\ retries_scheduled (trace s') = retries_scheduled (trace s))
    /\ (~ server_error r ->
        exists s',
          handle_transaction_request_task ext self delivery_id request_event_id s
          = Ret tt s'
          /\ trace s' = trace s1 ++ [convert data]
          /\ retries_requested (trace s') = retries_requested (trace s)
          /\ retries_scheduled (trace s') = retries_scheduled (trace s)).
Proof.
  intros Hev Hdel Hs. cbv zeta.
  set (attempt := {| attempt_delivery := delivery; attempt_task_id := Some request_id;
                     attempt_saved := true |}).
  set (s0 := emit (EvCreateAttempt attempt) s).
  destruct (dispatch_events_no_retry ext delivery (WEBHOOK_SYNC_TIMEOUT ext)
              (Some attempt) s0) as (Hrequested & Hscheduled & Hevents).
  assert (Htask : handle_transaction_request_task ext (bound_task request_id retries)
                    delivery_id request_event_id s
                  = bind (_send_webhook_request_sync ext delivery (WEBHOOK_SYNC_TIMEOUT ext)
                            (Some attempt))
                      (fun out =>
                         bind (if (truthy_num (response_status_code (fst out))
                                   && match response_status_code (fst out) with
                                      | Some code => 500 <=? code
                                      | None => false
                                      end)%bool
                               then bind (handle_webhook_retry
                                            (bound_task request_id retries)
                                            (delivery_webhook delivery) (fst out)
                                            (with_status delivery (status (fst out)))
                                            attempt)
                                      (fun _ => ret PyNone)
                               else ret (snd out))
                           (fun response_data =>
                              create_transaction_event_from_request_and_webhook_response
                                request_event (app (delivery_webhook delivery))
                                response_data)) s0).
  { unfold handle_transaction_request_task, create_attempt.
    unfold bind at 1, ask. rewrite Hev.
    unfold bind at 1. rewrite Hdel.
    unfold bind at 1, call. reflexivity. }
  rewrite Htask. clear Htask.
  unfold bind.
  rewrite (_send_supported ext delivery _ _ _ Hs).
  set (events := dispatch_events ext delivery (WEBHOOK_SYNC_TIMEOUT ext) (Some attempt) s0)
    in *.
  destruct (classify ext (transport_answer ext delivery (WEBHOOK_SYNC_TIMEOUT ext)
                            (Some attempt) s0)) as [r data].
  exists r, data. eexists. split; [reflexivity|].
  cbn [fst snd].
  pose proof (server_error_test r) as Htest.
  unfold handle_webhook_retry,
    create_transaction_event_from_request_and_webhook_response.
  change (retries_left (bound_task request_id retries)) with (Z.of_nat retries <? 5).
  change (retry_countdown (bound_task request_id retries))
    with (10 * 2 ^ Z.of_nat retries).
  destruct (truthy_num (response_status_code r) && _)%bool.
  - assert (He : server_error r) by (apply Htest; reflexivity).
    split; [|split; [|intros Hn; contradiction]]; intros _ Hr.
    + destruct (Z.ltb_spec (Z.of_nat retries) 5) as [_|Hge]; [|lia].
      unfold bind, call, raise, ret. eexists. split; [reflexivity|].
      unfold s0. cbn [trace emit emits].
      rewrite <- !app_assoc. split; [reflexivity|].
      rewrite !retries_scheduled_app, !occurrences_app, Hscheduled, Hevents.
      split; [reflexivity|]. unfold occurrences; simpl; lia.
    + destruct (Z.ltb_spec (Z.of_nat retries) 5) as [Hlt|_]; [lia|].
      unfold bind, call, raise, ret. eexists. split; [reflexivity|].
      unfold s0. cbn [trace emit emits].
      rewrite <- !app_assoc. split; [reflexivity|].
      rewrite !retries_scheduled_app, Hscheduled. simpl. now rewrite app_nil_r.
  - assert (He : ~ server_error r).
    { intros He. apply Htest in He. discriminate He. }
    split; [intros Hn; contradiction|]. split; [intros Hn; contradiction|].
    intros _. unfold bind, call, raise, ret. eexists. split; [reflexivity|].
    unfold s0. cbn [trace emit emits]. split; [reflexivity|].
    rewrite !retries_requested_app, !retries_scheduled_app, Hrequested, Hscheduled.
    simpl. now rewrite !app_nil_r.
Qed.

Lemma C7_witness :
  find_transaction_event (Demo.ext Demo.never_fails) Demo.world1 11
    = Some {| transaction_event_id := 11; transaction_event_transaction := 1 |}
  /\ get_delivery_for_webhook (Demo.ext Demo.never_fails) Demo.world1 1
      = Some Demo.saved_delivery
  /\ scheme_supported (Demo.ext Demo.never_fails)
       (target_url (delivery_webhook Demo.saved_delivery)) = true
  /\ let self := bound_task "task-1" 2 in
     let attempt := {| attempt_delivery := Demo.saved_delivery;
                       attempt_task_id := Some "task-1";
                       attempt_saved := true |} in
     let convert data :=
       EvCreateTransactionEventFromRequestAndWebhookResponse
         {| transaction_event_id := 11; transaction_event_transaction := 1 |}
         (app (delivery_webhook Demo.saved_delivery)) data in
     let countdown := 10 * 2 ^ Z.of_nat 2 in
     exists r data s1,
       _send_webhook_request_sync (Demo.ext Demo.never_fails) Demo.saved_delivery
         (WEBHOOK_SYNC_TIMEOUT (Demo.ext Demo.never_fails)) (Some attempt)
         (emit (EvCreateAttempt attempt) Demo.world1) = Ret (r, data) s1
       /\ (server_error r -> (2 < 5)%nat ->
           exists s',
             handle_transaction_request_task (Demo.ext Demo.never_fails) self 1 11
               Demo.world1 = Raise (Retry countdown) s'
             /\ trace s' = trace s1 ++
                  [EvHandleWebhookRetry self (delivery_webhook Demo.saved_delivery) r
                     (with_status Demo.saved_delivery (status r)) attempt;
                   EvTaskRetry self countdown]
             /\ retries_scheduled (trace s')
                = retries_scheduled (trace Demo.world1) ++ [(self, countdown)]
             /\ occurrences is_transaction_event (trace s')
                = occurrences is_transaction_event (trace Demo.world1))
       /\ (server_error r -> (5 <= 2)%nat ->
           exists s',
             handle_transaction_request_task (Demo.ext Demo.never_fails) self 1 11
               Demo.world1 = Ret tt s'
             /\ trace s' = trace s1 ++
                  [EvHandleWebhookRetry self (delivery_webhook Demo.saved_delivery) r
                     (with_status Demo.saved_delivery (status r)) attempt;
                   convert PyNone]
             /\ retries_scheduled (trace s') = retries_scheduled (trace Demo.world1))
       /\ (~ server_error r ->
           exists s',
             handle_transaction_request_task (Demo.ext Demo.never_fails) self 1 11
               Demo.world1 = Ret tt s'
             /\ trace s' = trace s1 ++ [convert data]
             /\ retries_requested (trace s') = retries_requested (trace Demo.world1)
             /\ retries_scheduled (trace s') = retries_scheduled (trace Demo.world1)).
Proof.
  split; [reflexivity|]. split; [reflexivity|]. split; [reflexivity|].
  apply (C7_server_error_retries (Demo.ext Demo.never_fails) "task-1" 2%nat 1 11
           {| transaction_event_id := 11; transaction_event_transaction := 1 |}
           Demo.saved_delivery Demo.world1); reflexivity.
Defined.

(** The subscriber of [Demo.saved_delivery] answers 503.  A task that has
    been retried twice is resubmitted after 40 and leaves by [Retry]: its
    trace holds the call of the retry helper and no transaction event. *)
Example task_retries_on_503 :
  exists s',
    handle_transaction_request_task (Demo.ext Demo.never_fails) (bound_task "task-1" 2)
      1 11 Demo.world1 = Raise (Retry 40) s'
    /\ retries_scheduled (trace s') = [(bound_task "task-1" 2, 40)]
    /\ occurrences is_transaction_event (trace s') = 0%nat.
Proof. eexists. split; [vm_compute; reflexivity|]. split; reflexivity. Qed.

(** The same answer to a task that has used its 5 retries: nothing is
    resubmitted and the conversion gets null. *)
Example task_gives_up_after_max_retries :
  exists s',
    handle_transaction_request_task (Demo.ext Demo.never_fails) (bound_task "task-1" 5)
      1 11 Demo.world1 = Ret tt s'
    /\ retries_scheduled (trace s') = []
    /\ last (trace s') =
         Some (EvCreateTransactionEventFromRequestAndWebhookResponse
                 {| transaction_event_id := 11; transaction_event_transaction := 1 |}
                 {| app_pk := 7 |} PyNone).
Proof. eexists. split; [vm_compute; reflexivity|]. split; reflexivity. Qed.

(** A 400 answer with a JSON body is converted with that body, without retry. *)
Example task_converts_client_error :
  exists s',
    handle_transaction_request_task (Demo.ext Demo.never_fails) (bound_task "task-1" 0)
      2 11 Demo.world1 = Ret tt s'
    /\ retries_requested (trace s') = []
    /\ last (trace s') =
         Some (EvCreateTransactionEventFromRequestAndWebhookResponse
                 {| transaction_event_id := 11; transaction_event_transaction := 1 |}
                 {| app_pk := 7 |} (PyDict [])).
Proof. eexists. split; [vm_compute; reflexivity|]. split; reflexivity. Qed.

(** ** The fallback loop *)

Lemma contacted_app a b : contacted (a ++ b) = contacted a ++ contacted b.
Proof. unfold contacted. now rewrite dispatches_app, map_app. Qed.

Lemma count_warnings_dispatch_events ext d timeout attempt s :
  count_logs WARNING (dispatch_events ext d timeout attempt s) = 0%nat.
Proof.
  unfold dispatch_events, dispatch_prelude, dispatch_log.
  generalize (transport_answer ext d timeout attempt s); intros resp.
  destruct attempt; simpl;
    destruct (classify ext resp) as [r data]; simpl;
    destruct (json_loads ext (content resp)); simpl;
    destruct (status resp); simpl; destruct (status r); reflexivity.
Qed.

(** A send that returns has made one exchange, with the delivery's webhook. *)
Lemma send_webhook_request_sync_returns ext d timeout s v s' :
  send_webhook_request_sync ext d timeout s = Ret v s' ->
  contacted (trace s') = contacted (trace s) ++ [target_url (delivery_webhook d)]
  /\ count_logs WARNING (trace s') = count_logs WARNING (trace s)
  /\ deliveries_created (trace s') = deliveries_created (trace s).
Proof.
  unfold send_webhook_request_sync, bind, ret.
  destruct (scheme_supported ext (target_url (delivery_webhook d))) eqn:Hs.
  - rewrite (_send_supported ext d timeout None s Hs). intros [= _ <-]. simpl.
    rewrite contacted_app, count_logs_app, deliveries_created_app.
    rewrite count_warnings_dispatch_events.
    unfold contacted at 2. rewrite dispatches_dispatch_events. simpl.
    split; [reflexivity|]. split; [lia|].
    unfold dispatch_events, dispatch_prelude, dispatch_log.
    generalize (transport_answer ext d timeout None s); intros resp.
    destruct (classify ext resp) as [r data]; simpl.
    destruct (json_loads ext (content resp)); simpl;
      destruct (status resp); simpl; destruct (status r); simpl;
      now rewrite app_nil_r.
  - rewrite (_send_unsupported ext d timeout None s Hs). discriminate.
Qed.

Lemma create_pair_quiet ext event_type webhook data with_save s d s1 :
  create_pair ext event_type webhook data with_save s = Ret d s1 ->
  contacted (trace s1) = contacted (trace s)
  /\ count_logs WARNING (trace s1) = count_logs WARNING (trace s)
  /\ delivery_webhook d = webhook.
Proof.
  unfold create_pair, atomic, save_payload, save_delivery. run. intros H.
  destruct with_save; simpl in H; split_writes H; try discriminate H.
  all: injection H as <- <-; simpl; rewrite contacted_app, count_logs_app; simpl.
  all: rewrite app_nil_r; split; [reflexivity|]; split; [lia|reflexivity].
Qed.

(** The factory sends nothing and logs no warning; a delivery it returns is
    addressed to the webhook it was asked for. *)
Lemma create_delivery_quiet ext event_type subscribable_object webhook requestor
    request allow_replica pregenerated_payload with_save s od s1 :
  create_delivery_for_subscription_sync_event ext event_type subscribable_object
    webhook requestor request allow_replica pregenerated_payload with_save s = Ret od s1 ->
  contacted (trace s1) = contacted (trace s)
  /\ count_logs WARNING (trace s1) = count_logs WARNING (trace s)
  /\ (forall d, od = Some d -> delivery_webhook d = webhook).
Proof.
  intros H. unfold create_delivery_for_subscription_sync_event in H. run.
  destruct (WEBHOOK_TYPES_MAP ext event_type); simpl in H.
  2:{ injection H as <- <-. simpl. rewrite contacted_app, count_logs_app. simpl.
      rewrite app_nil_r. split; [reflexivity|]. split; [lia|discriminate]. }
  assert (Hdata : forall (data : option Dict) s0,
    contacted (trace s0) = contacted (trace s) ->
    count_logs WARNING (trace s0) = count_logs WARNING (trace s) ->
    match data with
    | Some (entry :: entries) =>
        fun s2 =>
          match create_pair ext event_type webhook (entry :: entries) with_save s2 with
          | Ret a s' => Ret (Some a) s'
          | Raise e s' => Raise e s'
          end
    | _ => fun s2 =>
        Ret None (emit (EvLog INFO "No payload was generated with subscription for event: %s") s2)
    end s0 = Ret od s1 ->
    contacted (trace s1) = contacted (trace s)
    /\ count_logs WARNING (trace s1) = count_logs WARNING (trace s)
    /\ (forall d, od = Some d -> delivery_webhook d = webhook)).
  { intros data s0 Hc Hw Hr.
    destruct data as [[|entry entries]|]; simpl in Hr.
    2:{ destruct (create_pair ext event_type webhook (entry :: entries) with_save s0)
          as [d s2|] eqn:Hp; [|discriminate Hr].
        injection Hr as <- <-. apply create_pair_quiet in Hp as (H1 & H2 & H3).
        rewrite H1, H2, Hc, Hw. split; [reflexivity|]. split; [reflexivity|].
        intros d' [= <-]. exact H3. }
    all: injection Hr as <- <-; simpl; rewrite contacted_app, count_logs_app; simpl.
    all: rewrite app_nil_r, Hc, Hw.
    all: split; [reflexivity|]; split; [lia|discriminate]. }
  destruct request as [r|]; simpl in H;
    (destruct (truthy_dict pregenerated_payload); simpl in H;
     [apply Hdata in H; [exact H|simpl; rewrite ?contacted_app, ?count_logs_app; simpl;
                                   rewrite ?app_nil_r; first [reflexivity|lia]..]|]).
  all: match type of H with
       | context [generate_payload_from_subscription ?x ?w ?a ?b ?c ?d ?e] =>
           destruct (generate_payload_from_subscription x w a b c d e); simpl in H
       end.
  all: try discriminate H.
  all: apply Hdata in H; [exact H|simpl; rewrite ?contacted_app, ?count_logs_app; simpl;
                                   rewrite ?app_nil_r; first [reflexivity|lia]..].
Qed.

Section FallbackLoop.

Variable ext : Externals.
Variable event_type : string.
Variable generate_payload : World -> string.
Variable expected_lines_count : Z.
Variable subscribable_object : SubscribableObject.
Variable requestor : option string.
Variable payloads : list (Z * Dict).

Local Abbreviation delivery_for :=
  (taxes_delivery ext event_type generate_payload subscribable_object requestor payloads).
Local Abbreviation iteration :=
  (taxes_iteration ext event_type generate_payload expected_lines_count
     subscribable_object requestor payloads).
Local Abbreviation loop :=
  (taxes_loop ext event_type generate_payload expected_lines_count
     subscribable_object requestor payloads).
Local Abbreviation reply :=
  (webhook_reply ext event_type generate_payload subscribable_object requestor payloads).
Local Abbreviation rejected :=
  (all_rejected ext event_type generate_payload expected_lines_count
     subscribable_object requestor payloads).
Local Abbreviation warning := (EvLog WARNING "Webhook response for event %s is invalid: %s").

(** For a subscription webhook, building the delivery is the factory call of
    lines 384-392, made after the request context is in place. *)
Lemma taxes_delivery_subscription webhook locals s :
  truthy_str (subscription_query webhook) = true ->
  delivery_for webhook locals s =
    match create_delivery_for_subscription_sync_event ext event_type subscribable_object
            webhook requestor
            (Some (loop_request_context ext event_type requestor locals)) false
            (get_pregenerated_subscription_payload ext webhook payloads) false
            (emits (loop_request_init ext event_type requestor locals) s) with
    | Ret od s1 =>
        Ret (od, (Some (loop_request_context ext event_type requestor locals), snd locals)) s1
    | Raise e s1 => Raise e s1
    end.
Proof.
  intros Hq. unfold taxes_delivery, loop_request_init, loop_request_context.
  rewrite Hq. run. destruct (fst locals); simpl; rewrite ?emits_nil; reflexivity.
Qed.

Lemma taxes_delivery_quiet webhook locals s od locals' s1 :
  delivery_for webhook locals s = Ret (od, locals') s1 ->
  contacted (trace s1) = contacted (trace s)
  /\ count_logs WARNING (trace s1) = count_logs WARNING (trace s)
  /\ (forall d, od = Some d -> delivery_webhook d = webhook).
Proof.
  destruct (truthy_str (subscription_query webhook)) eqn:Hq.
  - rewrite (taxes_delivery_subscription webhook locals s Hq).
    destruct (create_delivery_for_subscription_sync_event _ _ _ _ _ _ _ _ _ _)
      as [od' s'|] eqn:Hc; [|discriminate].
    intros [= <- _ <-]. apply create_delivery_quiet in Hc as (H1 & H2 & H3).
    rewrite H1, H2. simpl. rewrite contacted_app, count_logs_app.
    unfold loop_request_init. destruct (fst locals); simpl; rewrite app_nil_r;
      (split; [reflexivity|]; split; [lia|exact H3]).
  - unfold taxes_delivery. rewrite Hq. run.
    destruct (snd locals); simpl; intros [= <- _ <-]; simpl;
      rewrite <- ?app_assoc, contacted_app, count_logs_app; simpl; rewrite app_nil_r;
      (split; [reflexivity|]; split; [lia|]); intros d [= <-]; reflexivity.
Qed.

Lemma webhook_reply_contacts webhook locals s response_data locals' s2 :
  reply webhook locals s = Some (response_data, locals', s2) ->
  contacted (trace s2) = contacted (trace s) ++ [target_url webhook]
  /\ count_logs WARNING (trace s2) = count_logs WARNING (trace s).
Proof.
  unfold webhook_reply.
  destruct (delivery_for webhook locals s) as [[[d|] l'] s1|] eqn:Hd; try discriminate.
  destruct (send_webhook_request_sync ext d (WEBHOOK_SYNC_TIMEOUT ext) s1)
    as [v s2'|] eqn:Hsend; [|discriminate].
  intros [= <- <- <-].
  apply taxes_delivery_quiet in Hd as (H1 & H2 & H3).
  apply send_webhook_request_sync_returns in Hsend as (H4 & H5 & _).
  rewrite H4, H5, H1, H2, (H3 d eq_refl). split; reflexivity.
Qed.

(** One pass through the loop body for a webhook that answers. *)
Lemma taxes_iteration_reply webhook locals s response_data locals' s2 :
  reply webhook locals s = Some (response_data, locals', s2) ->
  iteration webhook locals s =
    match parse_tax_data ext response_data expected_lines_count with
    | inl _ => Ret (Continue locals') (emit warning s2)
    | inr parsed => Ret (Return (Some parsed)) s2
    end.
Proof.
  unfold webhook_reply, taxes_iteration, bind.
  destruct (delivery_for webhook locals s) as [[[d|] l'] s1|]; try discriminate.
  simpl.
  destruct (send_webhook_request_sync ext d (WEBHOOK_SYNC_TIMEOUT ext) s1)
    as [v s2'|]; [|discriminate].
  intros [= <- <- <-].
  destruct (parse_tax_data ext v expected_lines_count); reflexivity.
Qed.

(** Webhooks that all answer with an invalid body are passed over: the loop
    goes on with the rest, each of them contacted once, in order, each
    drawing one warning. *)
Lemma all_rejected_loop pre post locals s locals1 s1 :
  rejected pre locals s = Some (locals1, s1) ->
  loop (pre ++ post) locals s = loop post locals1 s1
  /\ contacted (trace s1) = contacted (trace s) ++ map target_url pre
  /\ count_logs WARNING (trace s1) = (count_logs WARNING (trace s) + length pre)%nat.
Proof.
  revert locals s. induction pre as [|webhook pre IH]; intros locals s H; simpl in H.
  - injection H as <- <-. simpl. rewrite app_nil_r. repeat split; lia.
  - destruct (reply webhook locals s) as [[[v l'] s2]|] eqn:Hr; [|discriminate H].
    destruct (parse_tax_data ext v expected_lines_count) as [err|parsed] eqn:Hp;
      [|discriminate H].
    apply IH in H as (Hloop & Hc & Hw).
    pose proof (webhook_reply_contacts _ _ _ _ _ _ Hr) as (Hc2 & Hw2).
    split; [|split].
    + simpl. unfold bind at 1. rewrite (taxes_iteration_reply _ _ _ _ _ _ Hr), Hp.
      exact Hloop.
    + rewrite Hc. simpl. rewrite contacted_app, Hc2. simpl.
      rewrite app_nil_r, <- app_assoc. reflexivity.
    + rewrite Hw. simpl. rewrite count_logs_app, Hw2. simpl. lia.
Qed.

End FallbackLoop.



(** Three registered webhooks, the first two answering with invalid bodies:
    the third one's tax data is returned after three requests in registry
    order and two warnings. *)
Example fallback_short_circuit :
  exists s',
    trigger_taxes_all_webhooks_sync (Demo.ext Demo.never_fails)
      "checkout_calculate_taxes" (fun _ => "{}") 2 NoObject None None Demo.world0
    = Ret (Some [1; 2]) s'
    /\ contacted (trace s')
       = ["https://garbled.example/hook"; "https://short.example/hook";
          "https://ok.example/hook"]
    /\ count_logs WARNING (trace s') = 2%nat.
Proof. eexists. split; [vm_compute; reflexivity|]. split; reflexivity. Qed.

(** With three lines expected no webhook of the registry is valid: null after
    one request to each. *)
Example fallback_exhaustion :
  exists s',
    trigger_taxes_all_webhooks_sync (Demo.ext Demo.never_fails)
      "checkout_calculate_taxes" (fun _ => "{}") 3 NoObject None None Demo.world0
    = Ret None s'
    /\ contacted (trace s')
       = ["https://garbled.example/hook"; "https://short.example/hook";
          "https://ok.example/hook"]
    /\ count_logs WARNING (trace s') = 3%nat.
Proof. eexists. split; [vm_compute; reflexivity|]. split; reflexivity. Qed.

(** C6: when the loop reaches a subscription-query webhook for which the
    factory returns null, the function returns null there and then: that
    webhook is not contacted and none of the webhooks behind it is tried,
    whatever they would have answered. *)
Theorem C6_missing_delivery_aborts_loop ext event_type generate_payload
    expected_lines_count subscribable_object requestor pregenerated s pre webhook rest
    locals1 s1 s2 :
  let payloads := match pregenerated with None => [] | Some p => p end in
  get_webhooks_for_event ext s event_type None = pre ++ webhook :: rest ->
  all_rejected ext event_type generate_payload expected_lines_count subscribable_object
    requestor payloads pre (None, None) s = Some (locals1, s1) ->
  truthy_str (subscription_query webhook) = true ->
  create_delivery_for_subscription_sync_event ext event_type subscribable_object webhook
    requestor (Some (loop_request_context ext event_type requestor locals1)) false
    (get_pregenerated_subscription_payload ext webhook payloads) false
    (emits (loop_request_init ext event_type requestor locals1) s1) = Ret None s2 ->
  trigger_taxes_all_webhooks_sync ext event_type generate_payload expected_lines_count
    subscribable_object requestor pregenerated s = Ret None s2
  /\ contacted (trace s2) = contacted (trace s) ++ map target_url pre.
Proof.
  intros payloads Hreg Hrej Hq Hnone.
  pose proof (all_rejected_loop _ _ _ _ _ _ _ pre (webhook :: rest) _ _ _ _ Hrej)
    as (Hloop & Hc & _).
  split.
  - unfold trigger_taxes_all_webhooks_sync, bind at 1, ask. rewrite Hreg.
    fold payloads. rewrite Hloop. simpl. unfold bind at 1, taxes_iteration, bind at 1.
    rewrite (taxes_delivery_subscription _ _ _ _ _ _ _ _ _ Hq), Hnone. reflexivity.
  - apply create_delivery_quiet in Hnone as (H1 & _).
    rewrite H1. simpl. rewrite contacted_app, Hc.
    unfold loop_request_init. destruct (fst locals1); simpl; now rewrite app_nil_r.
Qed.

Lemma C6_witness :
  exists locals1 s1 s2,
    get_webhooks_for_event (Demo.ext Demo.never_fails) Demo.world0
      "order_calculate_taxes" None
      = [Demo.hook_garbled] ++ Demo.hook_subscribed_empty :: [Demo.hook_ok]
    /\ all_rejected (Demo.ext Demo.never_fails) "order_calculate_taxes"
         (fun _ => "{}") 2 NoObject None [] [Demo.hook_garbled]
         (None, None) Demo.world0 = Some (locals1, s1)
    /\ truthy_str (subscription_query Demo.hook_subscribed_empty) = true
    /\ create_delivery_for_subscription_sync_event (Demo.ext Demo.never_fails)
         "order_calculate_taxes" NoObject Demo.hook_subscribed_empty None
         (Some (loop_request_context (Demo.ext Demo.never_fails)
                  "order_calculate_taxes" None locals1))
         false
         (get_pregenerated_subscription_payload (Demo.ext Demo.never_fails)
            Demo.hook_subscribed_empty [])
         false
         (emits (loop_request_init (Demo.ext Demo.never_fails)
                   "order_calculate_taxes" None locals1) s1) = Ret None s2
    /\ trigger_taxes_all_webhooks_sync (Demo.ext Demo.never_fails)
         "order_calculate_taxes" (fun _ => "{}") 2 NoObject None None Demo.world0
       = Ret None s2
    /\ contacted (trace s2)
       = contacted (trace Demo.world0) ++ map target_url [Demo.hook_garbled].
Proof.
  do 3 eexists. split; [reflexivity|]. split; [vm_compute; reflexivity|].
  split; [reflexivity|]. split; [vm_compute; reflexivity|].
  eapply (C6_missing_delivery_aborts_loop (Demo.ext Demo.never_fails)
           "order_calculate_taxes" (fun _ => "{}") 2 NoObject None None Demo.world0
           [Demo.hook_garbled] Demo.hook_subscribed_empty [Demo.hook_ok]);
    [reflexivity | vm_compute; reflexivity | reflexivity | vm_compute; reflexivity].
Defined.

(** The webhook behind the aborting one would have answered with valid tax
    data, yet it is never asked. *)
Example fallback_aborted_before_valid_webhook :
  exists s',
    trigger_taxes_all_webhooks_sync (Demo.ext Demo.never_fails)
      "order_calculate_taxes" (fun _ => "{}") 2 NoObject None None Demo.world0
    = Ret None s'
    /\ contacted (trace s') = ["https://garbled.example/hook"]
    /\ exists s'',
         trigger_taxes_all_webhooks_sync (Demo.ext Demo.never_fails)
           "checkout_calculate_taxes" (fun _ => "{}") 2 NoObject None None s'
         = Ret (Some [1; 2]) s''.
Proof.
  eexists. split; [vm_compute; reflexivity|]. split; [reflexivity|].
  eexists. vm_compute. reflexivity.
Qed.

(** ** The response cache *)

Lemma same_store_refl s : same_store s s.
Proof. split; reflexivity. Qed.

Lemma same_store_trans s1 s2 s3 :
  same_store s1 s2 -> same_store s2 s3 -> same_store s1 s3.
Proof. unfold same_store. intros [-> ->] [-> ->]. split; reflexivity. Qed.

Lemma create_pair_same_store ext event_type webhook data with_save s :
  same_store s (final_world (create_pair ext event_type webhook data with_save s)).
Proof.
  unfold create_pair, atomic, save_payload, save_delivery. run.
  destruct with_save; simpl; [|split; reflexivity].
  destruct (db_write_fails ext _ (WritePayload _)); simpl; [split; reflexivity|].
  destruct (db_write_fails ext _ (WriteDelivery _)); simpl; split; reflexivity.
Qed.

Lemma create_delivery_same_store ext event_type subscribable_object webhook
    requestor request allow_replica pregenerated_payload with_save s :
  same_store s
    (final_world
       (create_delivery_for_subscription_sync_event ext event_type subscribable_object
          webhook requestor request allow_replica pregenerated_payload with_save s)).
Proof.
  unfold create_delivery_for_subscription_sync_event. run.
  destruct (WEBHOOK_TYPES_MAP ext event_type); simpl; [|split; reflexivity].
  assert (Hdata : forall (data : option Dict) s1,
    same_store s s1 ->
    same_store s
      (final_world
         (match data with
          | Some (entry :: entries) =>
              fun s0 =>
                match create_pair ext event_type webhook (entry :: entries) with_save s0 with
                | Ret a s' => Ret (Some a) s'
                | Raise e s' => Raise e s'
                end
          | _ => fun s0 =>
              Ret None (emit (EvLog INFO "No payload was generated with subscription for event: %s") s0)
          end s1))).
  { intros data s1 Hs.
    destruct data as [[|entry entries]|]; simpl; try exact Hs.
    pose proof (create_pair_same_store ext event_type webhook
                  (entry :: entries) with_save s1) as Hw.
    destruct (create_pair ext event_type webhook (entry :: entries) with_save s1);
      simpl in *; exact (same_store_trans _ _ _ Hs Hw). }
  destruct request as [r|]; simpl;
    (destruct (truthy_dict pregenerated_payload); simpl;
     [apply Hdata; split; reflexivity|]).
  all: match goal with
       | |- context [generate_payload_from_subscription ?x ?w ?a ?b ?c ?d ?e] =>
           destruct (generate_payload_from_subscription x w a b c d e); simpl
       end.
  all: first [apply Hdata; split; reflexivity | split; reflexivity].
Qed.

Lemma send_webhook_request_sync_same_store ext d timeout s :
  same_store s (final_world (send_webhook_request_sync ext d timeout s)).
Proof.
  unfold send_webhook_request_sync, bind, ret.
  destruct (scheme_supported ext (target_url (delivery_webhook d))) eqn:Hs.
  - rewrite (_send_supported ext d timeout None s Hs). split; reflexivity.
  - rewrite (_send_unsupported ext d timeout None s Hs). split; reflexivity.
Qed.

(** A dispatch through [trigger_webhook_sync] that hands back a body has
    made exactly one HTTP exchange, with the webhook, and has left the cache
    and the clock alone. *)
Lemma trigger_webhook_sync_def_returns ext event_type payload webhook allow_replica
    subscribable_object timeout request requestor pregenerated s v s' :
  trigger_webhook_sync_def ext event_type payload webhook allow_replica
    subscribable_object timeout request requestor pregenerated s = Ret v s' ->
  same_store s s'
  /\ (v <> PyNone -> contacted (trace s') = contacted (trace s) ++ [target_url webhook]).
Proof.
  unfold trigger_webhook_sync_def. unfold bind at 1.
  destruct (truthy_str (subscription_query webhook)).
  - pose proof (create_delivery_same_store ext event_type subscribable_object webhook
                  requestor request allow_replica pregenerated false s) as Hst.
    destruct (create_delivery_for_subscription_sync_event _ _ _ _ _ _ _ _ _ _)
      as [[d|] s1|] eqn:Hc; simpl in Hst; try discriminate.
    + intros Hsend.
      match type of Hsend with
      | send_webhook_request_sync _ _ ?t _ = _ =>
          pose proof (send_webhook_request_sync_same_store ext d t s1) as Hst2
      end.
      rewrite Hsend in Hst2. simpl in Hst2.
      split; [exact (same_store_trans _ _ _ Hst Hst2)|]. intros _.
      apply create_delivery_quiet in Hc as (H1 & _ & H3).
      apply send_webhook_request_sync_returns in Hsend as (H4 & _).
      rewrite H4, H1, (H3 d eq_refl). reflexivity.
    + intros [= <- <-]. split; [exact Hst|]. intros Hn; contradiction Hn; reflexivity.
  - run. intros Hsend.
    match type of Hsend with
    | send_webhook_request_sync _ ?d ?t ?w = _ =>
        pose proof (send_webhook_request_sync_same_store ext d t w) as Hst2;
        rewrite Hsend in Hst2; simpl in Hst2;
        apply send_webhook_request_sync_returns in Hsend as (H4 & _)
    end.
    split; [exact Hst2|]. intros _. rewrite H4. simpl.
    rewrite contacted_app. simpl. now rewrite app_nil_r.
Qed.

Lemma trigger_webhook_sync_returns ext event_type payload webhook allow_replica
    subscribable_object timeout request requestor pregenerated s v s' :
  trigger_webhook_sync ext event_type payload webhook allow_replica
    subscribable_object timeout request requestor pregenerated s = Ret v s' ->
  same_store s s'
  /\ (v <> PyNone -> contacted (trace s') = contacted (trace s) ++ [target_url webhook]).
Proof.
  unfold trigger_webhook_sync, breaker_wrap.
  destruct (breaker_board ext) as [board|].
  - destruct (board s event_type webhook).
    + intros [= <- <-]. split; [apply same_store_refl|].
      intros Hn; contradiction Hn; reflexivity.
    + apply trigger_webhook_sync_def_returns.
  - apply trigger_webhook_sync_def_returns.
Qed.

Lemma is_none_true v : is_none v = true -> v = PyNone.
Proof. destruct v; simpl; intros H; try discriminate H; reflexivity. Qed.

Lemma cache_get_hit key v expires s :
  cache s !! key = Some (v, expires) -> now s < expires -> cache_get key s = v.
Proof.
  intros H Hnow. unfold cache_get. rewrite H.
  destruct (Z.ltb_spec (now s) expires); [reflexivity|lia].
Qed.

(** C4: take a call of [trigger_webhook_sync_if_not_cached] that finds
    nothing cached under its key and returns a non-null body.  It has made
    exactly one HTTP exchange; and any later call with the same cache data,
    target URL, event type and app id, made before the timeout has run out
    and with the cache as the first call left it, returns that same body
    and leaves the world as it found it: no HTTP exchange, no delivery.
    Moreover a call never adds a cache entry holding null: a null result
    leaves the cache as it was. *)
Theorem C4_cached_body_served_without_dispatch ext event_type cache_data
    payload webhook allow_replica subscribable_object request_timeout cache_timeout
    request requestor pregenerated
    payload' webhook' allow_replica' subscribable_object' request_timeout' cache_timeout'
    request' requestor' pregenerated' s :
  let key := generate_cache_key_for_webhook ext cache_data (target_url webhook)
               event_type (app_id webhook) in
  let first_call :=
    trigger_webhook_sync_if_not_cached ext event_type payload webhook cache_data
      allow_replica subscribable_object request_timeout cache_timeout request requestor
      pregenerated in
  let second_call :=
    trigger_webhook_sync_if_not_cached ext event_type payload' webhook' cache_data
      allow_replica' subscribable_object' request_timeout' cache_timeout' request'
      requestor' pregenerated' in
  (forall body s1 s1',
     target_url webhook' = target_url webhook ->
     app_id webhook' = app_id webhook ->
     cache_get key s = PyNone ->
     first_call s = Ret body s1 ->
     body <> PyNone ->
     cache s1' = cache s1 ->
     now s1' < now s1 + resolved_cache_timeout ext cache_timeout ->
     contacted (trace s1) = contacted (trace s) ++ [target_url webhook]
     /\ second_call s1' = Ret body s1')
  /\ (forall v s1,
        first_call s = Ret v s1 ->
        (v = PyNone -> cache s1 = cache s)
        /\ (forall k x expires,
              cache s1 !! k = Some (x, expires) ->
              cache s !! k = Some (x, expires) \/ x <> PyNone)).
Proof.
  intros key first_call second_call. split.
  - intros body s1 s1' Hurl Happ Hmiss Hfirst Hbody Hcache Hnow.
    unfold first_call, trigger_webhook_sync_if_not_cached in Hfirst.
    fold key in Hfirst. unfold bind at 1, ask in Hfirst. rewrite Hmiss in Hfirst.
    simpl in Hfirst. unfold bind at 1 in Hfirst.
    destruct (trigger_webhook_sync ext event_type payload webhook allow_replica
                subscribable_object request_timeout request requestor pregenerated s)
      as [v s0|] eqn:Hdispatch; [|discriminate Hfirst].
    apply trigger_webhook_sync_returns in Hdispatch as ([Hc0 Hn0] & Hone).
    destruct (is_none v) eqn:Hv; simpl in Hfirst; unfold bind, cache_set, ret in Hfirst;
      injection Hfirst as <- <-.
    { apply is_none_true in Hv. contradiction. }
    split; [simpl; apply Hone; exact Hbody|].
    simpl in Hcache, Hnow. fold (resolved_cache_timeout ext cache_timeout) in Hcache.
    assert (Hhit : cache_get key s1' = v).
    { apply (cache_get_hit key v (now s0 + resolved_cache_timeout ext cache_timeout));
        [rewrite Hcache; apply lookup_insert_eq | exact Hnow]. }
    unfold second_call, trigger_webhook_sync_if_not_cached.
    rewrite Hurl, Happ. fold key. unfold bind at 1, ask. rewrite Hhit, Hv. reflexivity.
  - intros v s1 Hfirst.
    unfold first_call, trigger_webhook_sync_if_not_cached in Hfirst.
    fold key in Hfirst. unfold bind at 1, ask in Hfirst.
    destruct (is_none (cache_get key s)) eqn:Hmiss; simpl in Hfirst.
    2:{ injection Hfirst as <- <-. split; [reflexivity|]. intros k x e H. left; exact H. }
    unfold bind at 1 in Hfirst.
    destruct (trigger_webhook_sync ext event_type payload webhook allow_replica
                subscribable_object request_timeout request requestor pregenerated s)
      as [v0 s0|] eqn:Hdispatch; [|discriminate Hfirst].
    apply trigger_webhook_sync_returns in Hdispatch as ([Hc0 Hn0] & _).
    destruct (is_none v0) eqn:Hv; simpl in Hfirst; unfold bind, cache_set, ret in Hfirst;
      injection Hfirst as <- <-; simpl.
    { split; [intros _; exact Hc0|]. intros k x e H. left. rewrite <- Hc0. exact H. }
    split; [intros ->; discriminate Hv|].
    intros k x e H. destruct (decide (key = k)) as [<-|Hne].
    + rewrite lookup_insert_eq in H. injection H as <- _. right.
      intros ->. discriminate Hv.
    + rewrite lookup_insert_ne in H by exact Hne. left. rewrite <- Hc0. exact H.
Qed.

Lemma C4_witness :
  exists body s1,
    target_url Demo.hook_subscribed = target_url Demo.hook_ok
    /\ app_id Demo.hook_subscribed = app_id Demo.hook_ok
    /\ cache_get
         (generate_cache_key_for_webhook (Demo.ext Demo.never_fails) (PyInt 42)
            (target_url Demo.hook_ok) "checkout_calculate_taxes" (app_id Demo.hook_ok))
         Demo.world0 = PyNone
    /\ trigger_webhook_sync_if_not_cached (Demo.ext Demo.never_fails)
         "checkout_calculate_taxes" "{}" Demo.hook_ok (PyInt 42) false NoObject
         None None None None None Demo.world0 = Ret body s1
    /\ body <> PyNone
    /\ cache (advance 299 s1) = cache s1
    /\ now (advance 299 s1)
       < now s1 + resolved_cache_timeout (Demo.ext Demo.never_fails) None
    /\ contacted (trace s1) = contacted (trace Demo.world0) ++ [target_url Demo.hook_ok]
    /\ trigger_webhook_sync_if_not_cached (Demo.ext Demo.never_fails)
         "checkout_calculate_taxes" "other payload" Demo.hook_subscribed (PyInt 42) true
         NoObject (Some 5) (Some 60) None (Some "user") None (advance 299 s1)
       = Ret body (advance 299 s1).
Proof.
  do 2 eexists.
  split; [reflexivity|]. split; [reflexivity|]. split; [vm_compute; reflexivity|].
  split; [vm_compute; reflexivity|]. split; [discriminate|].
  split; [reflexivity|]. split; [vm_compute; reflexivity|].
  eapply (proj1 (C4_cached_body_served_without_dispatch (Demo.ext Demo.never_fails)
                   "checkout_calculate_taxes" (PyInt 42)
                   "{}" Demo.hook_ok false NoObject None None None None None
                   "other payload" Demo.hook_subscribed true NoObject (Some 5) (Some 60)
                   None (Some "user") None Demo.world0)).
  - reflexivity.
  - reflexivity.
  - vm_compute; reflexivity.
  - vm_compute; reflexivity.
  - discriminate.
  - reflexivity.
  - vm_compute; reflexivity.
Defined.

(** Once the timeout has run out the same call dispatches again. *)
Example cache_entry_expires :
  exists body s1 s2,
    trigger_webhook_sync_if_not_cached (Demo.ext Demo.never_fails)
      "checkout_calculate_taxes" "{}" Demo.hook_ok (PyInt 42) false NoObject
      None None None None None Demo.world0 = Ret body s1
    /\ trigger_webhook_sync_if_not_cached (Demo.ext Demo.never_fails)
         "checkout_calculate_taxes" "{}" Demo.hook_ok (PyInt 42) false NoObject
         None None None None None (advance 300 s1) = Ret body s2
    /\ contacted (trace s2) = ["https://ok.example/hook"; "https://ok.example/hook"].
Proof.
  do 3 eexists. split; [vm_compute; reflexivity|].
  split; [vm_compute; reflexivity|]. vm_compute. reflexivity.
Qed.

(** A failed dispatch and a JSON [null] answer both come back as null and
    leave the cache empty. *)
Example null_results_not_cached :
  exists s1 s2,
    trigger_webhook_sync_if_not_cached (Demo.ext Demo.never_fails)
      "checkout_calculate_taxes" "{}" Demo.hook_garbled (PyInt 42) false NoObject
      None None None None None Demo.world0 = Ret PyNone s1
    /\ cache s1 = ∅
    /\ trigger_webhook_sync_if_not_cached (Demo.ext Demo.never_fails)
         "checkout_calculate_taxes" "{}" Demo.hook_null (PyInt 42) false NoObject
         None None None None None Demo.world0 = Ret PyNone s2
    /\ cache s2 = ∅.
Proof.
  do 2 eexists. split; [vm_compute; reflexivity|]. split; [reflexivity|].
  split; [vm_compute; reflexivity|]. reflexivity.
Qed.

(** * Further properties of the module *)

(** ** The task's early exits *)

(** X1: when the request event cannot be found the task logs one error and
    returns; it creates no attempt, sends nothing, recomputes nothing and
    creates no transaction event. *)
Theorem task_without_request_event ext self delivery_id request_event_id s :
  find_transaction_event ext s request_event_id = None ->
  exists s',
    handle_transaction_request_task ext self delivery_id request_event_id s = Ret tt s'
    /\ trace s' = trace s ++
         [EvLog ERROR
            "Cannot find the request event with id: %s for transaction-request webhook."]
    /\ attempts_created (trace s') = attempts_created (trace s)
    /\ dispatches (trace s') = dispatches (trace s)
    /\ occurrences is_transaction_event (trace s')
       = occurrences is_transaction_event (trace s).
Proof.
  intros H. unfold handle_transaction_request_task. run. rewrite H. simpl.
  eexists. split; [reflexivity|]. simpl.
  rewrite attempts_created_app, dispatches_app, occurrences_app. simpl.
  rewrite !app_nil_r. repeat split; first [reflexivity | unfold occurrences; simpl; lia].
Qed.

Lemma task_without_request_event_witness :
  find_transaction_event
    (Scenarios.env Scenarios.no_events Demo.generate Demo.registry Demo.never_fails)
    Demo.world1 11 = None
  /\ exists s',
    handle_transaction_request_task
      (Scenarios.env Scenarios.no_events Demo.generate Demo.registry Demo.never_fails)
      (bound_task "task-1" 0) 1 11 Demo.world1 = Ret tt s'
    /\ trace s' = trace Demo.world1 ++
         [EvLog ERROR
            "Cannot find the request event with id: %s for transaction-request webhook."]
    /\ attempts_created (trace s') = attempts_created (trace Demo.world1)
    /\ dispatches (trace s') = dispatches (trace Demo.world1)
    /\ occurrences is_transaction_event (trace s')
       = occurrences is_transaction_event (trace Demo.world1).
Proof.
  split; [reflexivity|].
  apply (task_without_request_event
           (Scenarios.env Scenarios.no_events Demo.generate Demo.registry Demo.never_fails)
           (bound_task "task-1" 0) 1 11 Demo.world1).
  reflexivity.
Defined.

(** X2: when the request event is found but the delivery is not, the task
    recomputes the refundable amount of the event's transaction, logs one
    error and returns; no attempt, no HTTP exchange, no transaction event. *)
Theorem task_without_delivery ext self delivery_id request_event_id request_event s :
  find_transaction_event ext s request_event_id = Some request_event ->
  get_delivery_for_webhook ext s delivery_id = None ->
  exists s',
    handle_transaction_request_task ext self delivery_id request_event_id s = Ret tt s'
    /\ trace s' = trace s ++
         [EvRecalculateRefundableForCheckout
            (transaction_event_transaction request_event) request_event;
          EvLog ERROR
            "Cannot find the delivery with id: %s for transaction-request webhook."]
    /\ attempts_created (trace s') = attempts_created (trace s)
    /\ dispatches (trace s') = dispatches (trace s)
    /\ occurrences is_transaction_event (trace s')
       = occurrences is_transaction_event (trace s).
Proof.
  intros Hev Hdel. unfold handle_transaction_request_task. run. rewrite Hev, Hdel. simpl.
  eexists. split; [reflexivity|]. simpl. rewrite <- app_assoc.
  rewrite attempts_created_app, dispatches_app, occurrences_app. simpl.
  rewrite !app_nil_r. repeat split; first [reflexivity | unfold occurrences; simpl; lia].
Qed.

Lemma task_without_delivery_witness :
  find_transaction_event (Demo.ext Demo.never_fails) Demo.world0 11
    = Some {| transaction_event_id := 11; transaction_event_transaction := 1 |}
  /\ get_delivery_for_webhook (Demo.ext Demo.never_fails) Demo.world0 1 = None
  /\ exists s',
    handle_transaction_request_task (Demo.ext Demo.never_fails) (bound_task "task-1" 0)
      1 11 Demo.world0 = Ret tt s'
    /\ trace s' = trace Demo.world0 ++
         [EvRecalculateRefundableForCheckout 1
            {| transaction_event_id := 11; transaction_event_transaction := 1 |};
          EvLog ERROR
            "Cannot find the delivery with id: %s for transaction-request webhook."]
    /\ attempts_created (trace s') = attempts_created (trace Demo.world0)
    /\ dispatches (trace s') = dispatches (trace Demo.world0)
    /\ occurrences is_transaction_event (trace s')
       = occurrences is_transaction_event (trace Demo.world0).
Proof.
  split; [reflexivity|]. split; [reflexivity|].
  apply (task_without_delivery (Demo.ext Demo.never_fails) (bound_task "task-1" 0) 1 11
           {| transaction_event_id := 11; transaction_event_transaction := 1 |}
           Demo.world0); reflexivity.
Defined.

(** X3: when the delivery's target URL has an unsupported scheme, the task
    has already created and saved its attempt when the dispatcher raises; the
    exception leaves the task, which neither asks for a retry nor creates a
    transaction event, and sends nothing. *)
Theorem task_raises_on_unsupported_scheme ext request_id retries delivery_id
    request_event_id request_event delivery s :
  find_transaction_event ext s request_event_id = Some request_event ->
  get_delivery_for_webhook ext s delivery_id = Some delivery ->
  scheme_supported ext (target_url (delivery_webhook delivery)) = false ->
  exists msg arg s',
    handle_transaction_request_task ext (bound_task request_id retries) delivery_id
      request_event_id s = Raise (ValueError msg arg) s'
    /\ attempts_created (trace s')
       = attempts_created (trace s)
         ++ [{| attempt_delivery := delivery;
                attempt_task_id := Some request_id;
                attempt_saved := true |}]
    /\ dispatches (trace s') = dispatches (trace s)
    /\ retries_requested (trace s') = retries_requested (trace s)
    /\ occurrences is_transaction_event (trace s')
       = occurrences is_transaction_event (trace s).
Proof.
  intros Hev Hdel Hs. unfold handle_transaction_request_task. run. rewrite Hev, Hdel. simpl.
  rewrite (_send_unsupported ext delivery _ _ _ Hs).
  do 3 eexists. split; [reflexivity|]. simpl. rewrite <- app_assoc.
  rewrite attempts_created_app, dispatches_app, retries_requested_app, occurrences_app.
  simpl. rewrite !app_nil_r. repeat split; first [reflexivity | unfold occurrences; simpl; lia].
Qed.

Lemma task_raises_on_unsupported_scheme_witness :
  find_transaction_event (Demo.ext Demo.never_fails) Scenarios.ftp_world 11
    = Some {| transaction_event_id := 11; transaction_event_transaction := 1 |}
  /\ get_delivery_for_webhook (Demo.ext Demo.never_fails) Scenarios.ftp_world 1
     = Some Scenarios.ftp_delivery
  /\ scheme_supported (Demo.ext Demo.never_fails)
       (target_url (delivery_webhook Scenarios.ftp_delivery)) = false
  /\ exists msg arg s',
    handle_transaction_request_task (Demo.ext Demo.never_fails) (bound_task "task-1" 0) 1
      11 Scenarios.ftp_world = Raise (ValueError msg arg) s'
    /\ attempts_created (trace s')
       = attempts_created (trace Scenarios.ftp_world)
         ++ [{| attempt_delivery := Scenarios.ftp_delivery;
                attempt_task_id := Some "task-1";
                attempt_saved := true |}]
    /\ dispatches (trace s') = dispatches (trace Scenarios.ftp_world)
    /\ retries_requested (trace s') = retries_requested (trace Scenarios.ftp_world)
    /\ occurrences is_transaction_event (trace s')
       = occurrences is_transaction_event (trace Scenarios.ftp_world).
Proof.
  split; [reflexivity|]. split; [reflexivity|]. split; [reflexivity|].
  apply (task_raises_on_unsupported_scheme (Demo.ext Demo.never_fails) "task-1" 0%nat 1 11
           {| transaction_event_id := 11; transaction_event_transaction := 1 |}
           Scenarios.ftp_delivery Scenarios.ftp_world); reflexivity.
Defined.

(** ** The dispatcher's bookkeeping *)



Lemma attempts_created_dispatch_events ext d timeout attempt s :
  attempts_created (dispatch_events ext d timeout attempt s) =
    match attempt with
    | Some _ => []
    | None => [{| attempt_delivery := d; attempt_task_id := None; attempt_saved := false |}]
    end.
Proof.
  unfold dispatch_events, dispatch_prelude, dispatch_log, dispatch_attempt.
  generalize (transport_answer ext d timeout attempt s); intros resp.
  destruct attempt; simpl;
    destruct (classify ext resp) as [r data]; simpl;
    destruct (json_loads ext (content resp)); simpl;
    destruct (status resp); simpl; destruct (status r); reflexivity.
Qed.

(** X5: a dispatch that goes through creates an attempt record only when its
    caller supplied none, and then exactly one: unsaved, without task id,
    bound to the delivery.  With an attempt supplied it creates none. *)
Theorem dispatch_creates_attempt_only_when_missing ext d timeout attempt s :
  scheme_supported ext (target_url (delivery_webhook d)) = true ->
  exists out s',
    _send_webhook_request_sync ext d timeout attempt s = Ret out s'
    /\ (attempt = None ->
          attempts_created (trace s')
          = attempts_created (trace s)
            ++ [{| attempt_delivery := d; attempt_task_id := None;
                   attempt_saved := false |}])
    /\ (attempt <> None -> attempts_created (trace s') = attempts_created (trace s)).
Proof.
  intros Hs. rewrite (_send_supported ext d timeout attempt s Hs).
  do 2 eexists. split; [reflexivity|]. simpl.
  rewrite attempts_created_app, attempts_created_dispatch_events.
  split.
  - intros ->. reflexivity.
  - intros Hn. destruct attempt; [now rewrite app_nil_r|contradiction Hn; reflexivity].
Qed.

Lemma dispatch_creates_attempt_only_when_missing_witness :
  scheme_supported (Demo.ext Demo.never_fails)
    (target_url (delivery_webhook (Demo.delivery_to Demo.hook_ok))) = true
  /\ exists out s',
    _send_webhook_request_sync (Demo.ext Demo.never_fails) (Demo.delivery_to Demo.hook_ok)
      20 None Demo.world0 = Ret out s'
    /\ (@None EventDeliveryAttempt = None ->
          attempts_created (trace s')
          = attempts_created (trace Demo.world0)
            ++ [{| attempt_delivery := Demo.delivery_to Demo.hook_ok;
                   attempt_task_id := None; attempt_saved := false |}])
    /\ (@None EventDeliveryAttempt <> None ->
          attempts_created (trace s') = attempts_created (trace Demo.world0)).
Proof.
  split; [reflexivity|].
  apply (dispatch_creates_attempt_only_when_missing (Demo.ext Demo.never_fails)
           (Demo.delivery_to Demo.hook_ok) 20 None Demo.world0).
  reflexivity.
Defined.

Lemma span_errors_dispatch_events ext d timeout attempt s :
  occurrences is_span_error (dispatch_events ext d timeout attempt s) =
    match status (fst (classify ext (transport_answer ext d timeout attempt s))) with
    | FAILED => 1%nat
    | _ => 0%nat
    end.
Proof.
  unfold dispatch_events, dispatch_prelude, dispatch_log, occurrences.
  generalize (transport_answer ext d timeout attempt s); intros resp.
  destruct attempt; simpl;
    destruct (classify ext resp) as [r data]; simpl;
    destruct (json_loads ext (content resp)); simpl;
    destruct (status resp); simpl; destruct (status r); reflexivity.
Qed.

(** X6: the tracing span of a dispatch is marked as an error exactly when the
    returned status is FAILED, and then once. *)
Theorem span_error_iff_failed ext d timeout attempt s :
  scheme_supported ext (target_url (delivery_webhook d)) = true ->
  exists r data s',
    _send_webhook_request_sync ext d timeout attempt s = Ret (r, data) s'
    /\ (status r = FAILED ->
          occurrences is_span_error (trace s')
          = S (occurrences is_span_error (trace s)))
    /\ (status r <> FAILED ->
          occurrences is_span_error (trace s') = occurrences is_span_error (trace s)).
Proof.
  intros Hs. rewrite (_send_supported ext d timeout attempt s Hs).
  pose proof (span_errors_dispatch_events ext d timeout attempt s) as Hspan.
  destruct (classify ext (transport_answer ext d timeout attempt s)) as [r data].
  exists r, data. eexists. split; [reflexivity|]. simpl in *.
  rewrite occurrences_app, Hspan.
  destruct (status r); split; intros H; try discriminate H; try lia;
    contradiction H; reflexivity.
Qed.

Lemma span_error_iff_failed_witness :
  scheme_supported (Demo.ext Demo.never_fails)
    (target_url (delivery_webhook (Demo.delivery_to Demo.hook_garbled))) = true
  /\ exists r data s',
    _send_webhook_request_sync (Demo.ext Demo.never_fails)
      (Demo.delivery_to Demo.hook_garbled) 20 None Demo.world0 = Ret (r, data) s'
    /\ (status r = FAILED ->
          occurrences is_span_error (trace s')
          = S (occurrences is_span_error (trace Demo.world0)))
    /\ (status r <> FAILED ->
          occurrences is_span_error (trace s')
          = occurrences is_span_error (trace Demo.world0)).
Proof.
  split; [reflexivity|].
  apply (span_error_iff_failed (Demo.ext Demo.never_fails)
           (Demo.delivery_to Demo.hook_garbled) 20 None Demo.world0).
  reflexivity.
Defined.

(** ** The wrapper, seen from the transport *)

(** X7: for a delivery whose target URL has the scheme http or https,
    [send_webhook_request_sync] makes one HTTP exchange, whose message is
    the delivery's payload signed with the webhook's secret key, and hands
    back the decoded content of the answer when the transport reported
    SUCCESS and the content is valid JSON; in every other case (a failed or
    pending status, or content that does not decode) it hands back null. *)
Theorem wrapper_result_from_transport ext d timeout s :
  scheme_supported ext (target_url (delivery_webhook d)) = true ->
  exists req resp v s',
    send_webhook_request_sync ext d timeout s = Ret v s'
    /\ dispatches (trace s') = dispatches (trace s) ++ [(req, resp)]
    /\ http_message req = payload_body (delivery_payload d)
    /\ http_signature req
       = signature_for_payload ext (http_message req) (secret_key (delivery_webhook d))
    /\ (forall parsed,
          status resp = SUCCESS -> json_loads ext (content resp) = Some parsed ->
          v = parsed)
    /\ (status resp <> SUCCESS -> v = PyNone)
    /\ (json_loads ext (content resp) = None -> v = PyNone).
Proof.
  intros Hs. unfold send_webhook_request_sync, bind, ret.
  rewrite (_send_supported ext d timeout None s Hs).
  exists (dispatch_request ext d timeout s), (transport_answer ext d timeout None s).
  do 2 eexists. split; [reflexivity|].
  split; [simpl; now rewrite dispatches_app, dispatches_dispatch_events|].
  split; [reflexivity|]. split; [reflexivity|].
  unfold classify.
  destruct (json_loads ext (content (transport_answer ext d timeout None s))); simpl.
  - split; [intros parsed H [= <-]; rewrite H; reflexivity|].
    split; [|discriminate].
    intros H. destruct (status (transport_answer ext d timeout None s));
      try reflexivity. contradiction H; reflexivity.
  - split; [discriminate|]. split; reflexivity.
Qed.

Lemma wrapper_result_from_transport_witness :
  scheme_supported (Demo.ext Demo.never_fails)
    (target_url (delivery_webhook (Demo.delivery_to Demo.hook_denied))) = true
  /\ exists req resp v s',
    send_webhook_request_sync (Demo.ext Demo.never_fails)
      (Demo.delivery_to Demo.hook_denied) 20 Demo.world0 = Ret v s'
    /\ dispatches (trace s') = dispatches (trace Demo.world0) ++ [(req, resp)]
    /\ http_message req = payload_body (delivery_payload (Demo.delivery_to Demo.hook_denied))
    /\ http_signature req
       = signature_for_payload (Demo.ext Demo.never_fails) (http_message req)
           (secret_key (delivery_webhook (Demo.delivery_to Demo.hook_denied)))
    /\ (forall parsed,
          status resp = SUCCESS ->
          json_loads (Demo.ext Demo.never_fails) (content resp) = Some parsed ->
          v = parsed)
    /\ (status resp <> SUCCESS -> v = PyNone)
    /\ (json_loads (Demo.ext Demo.never_fails) (content resp) = None -> v = PyNone).
Proof.
  split; [reflexivity|].
  apply (wrapper_result_from_transport (Demo.ext Demo.never_fails)
           (Demo.delivery_to Demo.hook_denied) 20 Demo.world0).
  reflexivity.
Defined.

(** ** [trigger_webhook_sync] *)

(** A call the circuit breaker lets through runs the function as defined. *)
Lemma trigger_webhook_sync_passes ext event_type payload webhook allow_replica
    subscribable_object timeout request requestor pregenerated s :
  breaker_short_circuits ext s event_type webhook = false ->
  trigger_webhook_sync ext event_type payload webhook allow_replica
    subscribable_object timeout request requestor pregenerated s
  = trigger_webhook_sync_def ext event_type payload webhook allow_replica
      subscribable_object timeout request requestor pregenerated s.
Proof.
  unfold breaker_short_circuits, trigger_webhook_sync, breaker_wrap.
  destruct (breaker_board ext) as [board|]; [|reflexivity].
  intros ->. reflexivity.
Qed.

(** X8: when the circuit breaker, if one is configured, does not
    short-circuit the call, [trigger_webhook_sync] treats a webhook that has
    no subscription query and whose target URL has the scheme http or https
    as follows: it sends the caller's payload as it is, in one HTTP exchange
    whose message is the payload, signed over that payload with the
    webhook's secret, carrying the event type and the webhook's custom
    headers, with the caller's timeout, or the configured default when the
    timeout is missing or zero.  The subscription generator is not run. *)
Theorem static_payload_is_sent_as_given ext event_type payload webhook allow_replica
    subscribable_object timeout request requestor pregenerated s :
  breaker_short_circuits ext s event_type webhook = false ->
  truthy_str (subscription_query webhook) = false ->
  scheme_supported ext (target_url webhook) = true ->
  exists req resp v s',
    trigger_webhook_sync ext event_type payload webhook allow_replica
      subscribable_object timeout request requestor pregenerated s = Ret v s'
    /\ dispatches (trace s') = dispatches (trace s) ++ [(req, resp)]
    /\ http_target_url req = target_url webhook
    /\ http_message req = payload
    /\ http_signature req = signature_for_payload ext payload (secret_key webhook)
    /\ http_event_type req = event_type
    /\ http_custom_headers req = custom_headers webhook
    /\ http_timeout req = resolved_sync_timeout ext timeout
    /\ occurrences is_generate_from_subscription (trace s')
       = occurrences is_generate_from_subscription (trace s).
Proof.
  intros Hb Hq Hs. rewrite (trigger_webhook_sync_passes _ _ _ _ _ _ _ _ _ _ _ Hb).
  unfold trigger_webhook_sync_def. rewrite Hq. run.
  unfold send_webhook_request_sync, bind, ret.
  match goal with
  | |- context [_send_webhook_request_sync ext ?d ?t None ?w] =>
      rewrite (_send_supported ext d t None w Hs);
      exists (dispatch_request ext d t w), (transport_answer ext d t None w);
      pose proof (dispatches_dispatch_events ext d t None w) as Hd;
      assert (Hg : occurrences is_generate_from_subscription
                     (dispatch_events ext d t None w) = 0%nat)
  end.
  { unfold dispatch_events, dispatch_prelude, dispatch_log, occurrences.
    match goal with
    | |- context [classify ext ?a] => generalize a; intros resp
    end.
    destruct (classify ext resp) as [r data]; simpl.
    destruct (json_loads ext (content resp)); simpl;
      destruct (status resp); simpl; destruct (status r); reflexivity. }
  do 2 eexists. split; [reflexivity|]. simpl.
  rewrite <- app_assoc, dispatches_app, dispatches_app, Hd, !occurrences_app, Hg. simpl.
  repeat split; try reflexivity.
  - unfold resolved_sync_timeout, truthy_num.
    destruct timeout as [t|]; [destruct (t =? 0)|]; reflexivity.
  - unfold occurrences; simpl; lia.
Qed.

Lemma static_payload_is_sent_as_given_witness :
  breaker_short_circuits
    (Scenarios.guarded (Demo.ext Demo.never_fails) "http://tripped.example")
    Demo.world0 "checkout_calculate_taxes" Demo.hook_ok = false
  /\ truthy_str (subscription_query Demo.hook_ok) = false
  /\ scheme_supported
       (Scenarios.guarded (Demo.ext Demo.never_fails) "http://tripped.example")
       (target_url Demo.hook_ok) = true
  /\ exists req resp v s',
    trigger_webhook_sync
      (Scenarios.guarded (Demo.ext Demo.never_fails) "http://tripped.example")
      "checkout_calculate_taxes"
      "[0]" Demo.hook_ok false NoObject (Some 0) None None None Demo.world0 = Ret v s'
    /\ dispatches (trace s') = dispatches (trace Demo.world0) ++ [(req, resp)]
    /\ http_target_url req = target_url Demo.hook_ok
    /\ http_message req = "[0]"
    /\ http_signature req
       = signature_for_payload
           (Scenarios.guarded (Demo.ext Demo.never_fails) "http://tripped.example")
           "[0]" (secret_key Demo.hook_ok)
    /\ http_event_type req = "checkout_calculate_taxes"
    /\ http_custom_headers req = custom_headers Demo.hook_ok
    /\ http_timeout req
       = resolved_sync_timeout
           (Scenarios.guarded (Demo.ext Demo.never_fails) "http://tripped.example")
           (Some 0)
    /\ occurrences is_generate_from_subscription (trace s')
       = occurrences is_generate_from_subscription (trace Demo.world0).
Proof.
  split; [reflexivity|]. split; [reflexivity|]. split; [reflexivity|].
  apply (static_payload_is_sent_as_given
           (Scenarios.guarded (Demo.ext Demo.never_fails) "http://tripped.example")
           "checkout_calculate_taxes" "[0]" Demo.hook_ok false NoObject (Some 0)
           None None None Demo.world0); reflexivity.
Defined.

(** The breaker open for the webhook's endpoint: the call returns null and
    nothing is sent. *)
Example open_breaker_sends_nothing :
  trigger_webhook_sync
    (Scenarios.guarded (Demo.ext Demo.never_fails) (target_url Demo.hook_ok))
    "checkout_calculate_taxes" "[0]" Demo.hook_ok false NoObject None None None None
    Demo.world0 = Ret PyNone Demo.world0.
Proof. reflexivity. Qed.

(** ** Rows, cache and clock under the synchronous entry points *)



Lemma create_pair_unsaved_same_tables ext event_type webhook data s :
  same_tables s (final_world (create_pair ext event_type webhook data false s)).
Proof. unfold create_pair, atomic. run. split; reflexivity. Qed.











